(** * mogreps_utils: filename parsing, ground-level selection and UK/global pairing

    A shallow embedding of [mogreps_utils.py].  Python values are modelled
    as follows:
    - [str] is [string] (text is taken to be ASCII, as the Mogreps object
      keys are); Python integers are [Z];
    - a Python list is a [list]; subscripts, slices and item assignment go
      through [Py.getitem], [Py.slice_from] and [Py.setitem], which
      implement negative indices and raise [IndexError] as Python does;
    - a Python call that may raise returns a [result]; exceptions are named
      by their class ([exn]);
    - the iris cube is a record of its name and its coordinates; what the
      iris library computes on the data payload ([Cube.extract], loading,
      regridding) is taken as a parameter of the sections below. *)

From Stdlib Require Import String Ascii List ZArith NArith Lia Bool.
From Stdlib Require Import Decimal DecimalString DecimalN.
From Stdlib Require Import Sorted.
Import ListNotations.

#[local] Open Scope string_scope.
#[local] Open Scope Z_scope.

(** ** Exceptions and the error monad

    An exception is known by its class, as far as the [except] clause of
    [get_uk_global_pairs] tells classes apart.  iris's
    [CoordinateNotFoundError] is a [KeyError]; [OtherError] stands for any
    class that is none of the others (an [OSError] of the loader, say). *)

Inductive exn : Type :=
| IndexError
| ValueError
| TypeError
| AttributeError
| UnboundLocalError
| CoordinateNotFoundError
| OtherError (cls : string).

Inductive result (A : Type) : Type :=
| OK (a : A)
| Raise (e : exn).

Arguments OK {A} a.
Arguments Raise {A} e.

Definition bind {A B : Type} (r : result A) (k : A -> result B) : result B :=
  match r with
  | OK a => k a
  | Raise e => Raise e
  end.

Notation "x <- r ;; k" := (bind r (fun x => k))
  (at level 61, r at next level, right associativity).
Notation "' p <- r ;; k" := (bind r (fun x => let p := x in k))
  (at level 61, p pattern, r at next level, right associativity).

(** A list comprehension [[f x for x in l]] whose body may raise: elements
    are evaluated left to right and the first exception escapes. *)
Fixpoint mapM {A B : Type} (f : A -> result B) (l : list A) : result (list B) :=
  match l with
  | [] => OK []
  | a :: t => b <- f a ;; bs <- mapM f t ;; OK (b :: bs)
  end.

(** ** Python list primitives *)

Module Py.

(** Normalisation of a subscript: a negative index counts from the end. *)
Definition norm_index (len : nat) (i : Z) : Z :=
  if i <? 0 then i + Z.of_nat len else i.

(** [l[i]] *)
Definition getitem {A : Type} (l : list A) (i : Z) : result A :=
  let j := norm_index (length l) i in
  if (j <? 0) || (Z.of_nat (length l) <=? j) then Raise IndexError
  else match nth_error l (Z.to_nat j) with
       | Some a => OK a
       | None => Raise IndexError
       end.

Fixpoint update {A : Type} (l : list A) (n : nat) (v : A) : list A :=
  match l, n with
  | [], _ => []
  | _ :: t, O => v :: t
  | a :: t, S k => a :: update t k v
  end.

(** [l[i] = v] *)
Definition setitem {A : Type} (l : list A) (i : Z) (v : A) : result (list A) :=
  let j := norm_index (length l) i in
  if (j <? 0) || (Z.of_nat (length l) <=? j) then Raise IndexError
  else OK (update l (Z.to_nat j) v).

(** [l[i:]]: the start is clamped into [0 .. len(l)], never raises. *)
Definition slice_from {A : Type} (l : list A) (i : Z) : list A :=
  let j := norm_index (length l) i in
  skipn (Z.to_nat (Z.max 0 j)) l.

(** [l.index(x)]: position of the first element equal to [x], [ValueError]
    when there is none. *)
Fixpoint index (l : list string) (x : string) : result Z :=
  match l with
  | [] => Raise ValueError
  | a :: t => if String.eqb a x then OK 0
              else i <- index t x ;; OK (i + 1)
  end.

(** [x in l] *)
Definition contains (l : list string) (x : string) : bool :=
  existsb (String.eqb x) l.

(** ** [str.split(sep)] for a one-character separator *)

Fixpoint split (sep : ascii) (s : string) : list string :=
  match s with
  | EmptyString => [EmptyString]
  | String c r =>
      if Ascii.eqb c sep then EmptyString :: split sep r
      else match split sep r with
           | h :: t => String c h :: t
           | [] => [String c EmptyString]
           end
  end.

(** ** [int(s)] on text

    Leading and trailing ASCII whitespace is dropped, one optional sign is
    read, and what is left has to be a non-empty run of decimal digits.
    The digit-grouping underscore is not modelled: [get_info] applies
    [int] to pieces of a split on ["_"], which hold no underscore. *)

Definition is_space (c : ascii) : bool :=
  let n := nat_of_ascii c in
  ((9 <=? n) && (n <=? 13))%nat || (n =? 32)%nat.

Fixpoint lstrip (s : string) : string :=
  match s with
  | EmptyString => EmptyString
  | String c r => if is_space c then lstrip r else s
  end.

Fixpoint rstrip (s : string) : string :=
  match s with
  | EmptyString => EmptyString
  | String c r =>
      match rstrip r with
      | EmptyString => if is_space c then EmptyString else String c EmptyString
      | r' => String c r'
      end
  end.

Definition strip (s : string) : string := rstrip (lstrip s).

(** A non-empty run of decimal digits, read in base ten. *)
Definition digits_value (s : string) : option N :=
  option_map N.of_uint (NilZero.uint_of_string s).

Definition int (s : string) : result Z :=
  let t := strip s in
  let '(neg, body) :=
    match t with
    | String c r => if Ascii.eqb c "-" then (true, r)
                    else if Ascii.eqb c "+" then (false, r)
                    else (false, t)
    | EmptyString => (false, t)
    end in
  match digits_value body with
  | Some n => OK (if neg then - Z.of_N n else Z.of_N n)
  | None => Raise ValueError
  end.

(** ** [format(z, "0Wd")]: sign-aware zero padding to a minimum width

    The sign, when there is one, counts in the width; the digits are never
    truncated. *)

Definition digits_of (n : N) : string :=
  NilEmpty.string_of_uint (N.to_uint n).

Fixpoint zeros (k : nat) : string :=
  match k with
  | O => EmptyString
  | S k' => String "0" (zeros k')
  end.

Definition zfill (w : nat) (s : string) : string :=
  zeros (w - String.length s) ++ s.

Definition format_0d (w : nat) (z : Z) : string :=
  if z <? 0 then String "-" (zfill (w - 1) (digits_of (Z.to_N (- z))))
  else zfill w (digits_of (Z.to_N z)).

End Py.

(** ** Values held by the list that [get_info] returns *)

Inductive pyval : Type :=
| PStr (s : string)
| PInt (z : Z).

(** [str(v)], what a bare [{}] field of [str.format] prints. *)
Definition py_str (v : pyval) : string :=
  match v with
  | PStr s => s
  | PInt z => Py.format_0d 0 z
  end.

(** [v + k] and [v - k] for an integer literal [k]. *)
Definition py_add_int (v : pyval) (k : Z) : result pyval :=
  match v with
  | PInt z => OK (PInt (z + k))
  | PStr _ => Raise TypeError
  end.

(** A [{:0Wd}] field: only integers take the [d] presentation type. *)
Definition py_format_0d (w : nat) (v : pyval) : result string :=
  match v with
  | PInt z => OK (Py.format_0d w z)
  | PStr _ => Raise ValueError
  end.

(** ** [get_info] *)

Definition get_info (fname : string) : result (list pyval) :=
  let segs := Py.split "_" fname in
  last <- Py.getitem segs (-1) ;;
  stem <- Py.getitem (Py.split "." last) 0 ;;
  segs <- Py.setitem segs (-1) stem ;;
  date <- Py.getitem segs (-4) ;;
  ints <- mapM Py.int (Py.slice_from segs (-3)) ;;
  OK (PStr date :: map PInt ints).

(** The name of the global file that matches a regional one
    (the [str.format] call of [get_uk_global_pairs]). *)
Definition g_fname_of (info : list pyval) : result string :=
  a0 <- Py.getitem info 0 ;;
  i1 <- Py.getitem info 1 ;;
  a1 <- py_add_int i1 (-3) ;;
  a2 <- Py.getitem info 2 ;;
  i3 <- Py.getitem info 3 ;;
  a3 <- py_add_int i3 3 ;;
  s1 <- py_format_0d 2 a1 ;;
  s2 <- py_format_0d 2 a2 ;;
  s3 <- py_format_0d 3 a3 ;;
  OK ("prods_op_mogreps-g_" ++ py_str a0 ++ "_" ++ s1 ++ "_" ++ s2
        ++ "_" ++ s3 ++ ".nc").

(** ** Regular expressions [re.match(prefix + ".*", s)]

    The pattern is anchored at the start of [s]; [.] matches every
    character but the line feed, so [group(0)] is [s] cut at its first line
    feed.  Neither prefix used below holds a line feed. *)

Definition is_newline (c : ascii) : bool := (nat_of_ascii c =? 10)%nat.

Fixpoint until_newline (s : string) : string :=
  match s with
  | EmptyString => EmptyString
  | String c r => if is_newline c then EmptyString else String c (until_newline r)
  end.

Definition re_match (p s : string) : option string :=
  if String.prefix p s then Some (until_newline s) else None.

Definition is_match (m : option string) : bool :=
  match m with Some _ => true | None => false end.

(** ** Cubes

    [V] is the type of coordinate values and [ltb] Python's [<] on them;
    [Data] stands for everything else a cube holds. *)

Section Cubes.

Variable V : Type.
Variable ltb : V -> V -> bool.
Variable Data : Type.

Record Coord : Type := mkCoord {
  coord_name : string;
  coord_points : list V
}.

Record Cube : Type := mkCube {
  cube_name : string;
  cube_coords : list Coord;
  cube_data : Data
}.

(** An attribute access [obj.attr] on a name that may hold [None]. *)
Definition attr {A : Type} (obj : option A) : result A :=
  match obj with
  | Some a => OK a
  | None => Raise AttributeError
  end.

(** [cube.coord(name)]: the one coordinate of that name; iris raises
    [CoordinateNotFoundError] unless exactly one matches. *)
Definition cube_coord (c : Cube) (name : string) : result Coord :=
  match filter (fun d => String.eqb (coord_name d) name) (cube_coords c) with
  | [d] => OK d
  | _ => Raise CoordinateNotFoundError
  end.

(** [cube.remove_coord(name)] *)
Definition remove_coord (c : Cube) (name : string) : result Cube :=
  _ <- cube_coord c name ;;
  OK (mkCube (cube_name c)
             (filter (fun d => negb (String.eqb (coord_name d) name)) (cube_coords c))
             (cube_data c)).

(** [min(points)] and [max(points)]: the builtins keep the first item and
    replace it by a later one that is strictly smaller (greater). *)
Fixpoint min_from (m : V) (l : list V) : V :=
  match l with
  | [] => m
  | x :: t => min_from (if ltb x m then x else m) t
  end.

Fixpoint max_from (m : V) (l : list V) : V :=
  match l with
  | [] => m
  | x :: t => max_from (if ltb m x then x else m) t
  end.

Definition py_min (l : list V) : result V :=
  match l with
  | [] => Raise ValueError
  | x :: t => OK (min_from x t)
  end.

Definition py_max (l : list V) : result V :=
  match l with
  | [] => Raise ValueError
  | x :: t => OK (max_from x t)
  end.

(** [cube.extract] under an [iris.Constraint] that asks the coordinate
    [name] to take the value [v]: the sub-cube where it does, [None] when
    there is none. *)
Variable extract : Cube -> string -> V -> result (option Cube).

(** *** [get_ground_level] *)

Definition any_match (p : string) (c : Cube) : bool :=
  existsb (fun d => is_match (re_match p (coord_name d))) (cube_coords c).

(** The [for d in cube.coords()] loop: [name] and [vert_coord] are
    rebound at every coordinate whose name matches. *)
Fixpoint scan_coords (p : string) (c : Cube) (ds : list Coord)
    (cur : option (string * Coord)) : result (option (string * Coord)) :=
  match ds with
  | [] => OK cur
  | d :: t =>
      match re_match p (coord_name d) with
      | Some name =>
          vert_coord <- cube_coord c name ;;
          scan_coords p c t (Some (name, vert_coord))
      | None => scan_coords p c t cur
      end
  end.

(** Reading [name] and [vert_coord] after the loop. *)
Definition bound {A : Type} (x : option A) : result A :=
  match x with
  | Some a => OK a
  | None => Raise UnboundLocalError
  end.

Definition get_ground_level (cube : option Cube)
    : result (option Cube * option string) :=
  c <- attr cube ;;
  if any_match "height" c then
    cur <- scan_coords "height" c (cube_coords c) None ;;
    '(name, vert_coord) <- bound cur ;;
    v <- py_min (coord_points vert_coord) ;;
    ground_level <- extract c name v ;;
    OK (ground_level, Some name)
  else if any_match "pressure" c then
    cur <- scan_coords "pressure" c (cube_coords c) None ;;
    '(name, vert_coord) <- bound cur ;;
    v <- py_max (coord_points vert_coord) ;;
    ground_level <- extract c name v ;;
    OK (ground_level, Some name)
  else
    OK (Some c, None).

(** *** [get_uk_global_pairs]

    [iris_load] is [iris.load]; [unrotate] and [get_uk_from_global] are the
    two regridding helpers of the module, whose floating-point work is done
    by iris and numpy. *)

Variable iris_load : string -> result (list Cube).
Variable unrotate : option Cube -> option Cube -> result Cube.
Variable get_uk_from_global : option Cube -> Cube -> result Cube.

(** [cubes[[c.name() for c in cubes].index(param)]] *)
Definition cube_named (cubes : list Cube) (param : string) : result Cube :=
  i <- Py.index (map cube_name cubes) param ;;
  Py.getitem cubes i.

(** [cube.coord('time').points[-1]] *)
Definition last_time (cube : option Cube) : result V :=
  c <- attr cube ;;
  t <- cube_coord c "time" ;;
  Py.getitem (coord_points t) (-1).

(** [if h: cube.remove_coord(h)]: [None] and the empty string are false. *)
Definition drop_vertical (cube : option Cube) (h : option string)
    : result (option Cube) :=
  match h with
  | Some (String a r) =>
      c <- attr cube ;;
      c' <- remove_coord c (String a r) ;;
      OK (Some c')
  | _ => OK cube
  end.

Definition pairs : Type := (list Cube * list Cube)%type.

Section Driver.

Variable param : string.
Variable g_files : list string.
Variable uk_path g_path : string.

(** The statements of the [try] block up to the two [append]s. *)
Definition aligned_pair (uk_fname g_fname : string) : result (Cube * Cube) :=
  g_cubes <- iris_load (g_path ++ g_fname) ;;
  uk_cubes <- iris_load (uk_path ++ uk_fname) ;;
  uk_cube <- cube_named uk_cubes param ;;
  g_cube <- cube_named g_cubes param ;;
  t <- last_time (Some uk_cube) ;;
  uk_cube <- extract uk_cube "time" t ;;
  t <- last_time uk_cube ;;
  g_cube <- extract g_cube "time" t ;;
  _ <- (c <- attr uk_cube ;; cube_coord c "time") ;;
  '(uk_cube, uk_h) <- get_ground_level uk_cube ;;
  uk_cube <- drop_vertical uk_cube uk_h ;;
  '(g_cube, g_h) <- get_ground_level g_cube ;;
  g_cube <- drop_vertical g_cube g_h ;;
  uk_unrotate <- unrotate uk_cube g_cube ;;
  g_cube_uk <- get_uk_from_global g_cube uk_unrotate ;;
  OK (uk_unrotate, g_cube_uk).

(** [except (IndexError, AttributeError): pass] *)
Definition handled (e : exn) : bool :=
  match e with
  | IndexError | AttributeError => true
  | _ => false
  end.

(** One turn of [for fname in uk_files].  The two [append]s close the
    [try] block and cannot raise, so the lists seen by the handler are those
    at the entry of the block. *)
Definition loop_body (st : pairs) (fname : string) : result pairs :=
  info <- get_info fname ;;
  let uk_fname := fname in
  g_fname <- g_fname_of info ;;
  if Py.contains g_files g_fname then
    match aligned_pair uk_fname g_fname with
    | OK (uk_unrotate, g_cube_uk) =>
        OK ((fst st ++ [uk_unrotate])%list, (snd st ++ [g_cube_uk])%list)
    | Raise e => if handled e then OK st else Raise e
    end
  else OK st.

Fixpoint run (st : pairs) (uk_files : list string) : result pairs :=
  match uk_files with
  | [] => OK st
  | fname :: rest => st' <- loop_body st fname ;; run st' rest
  end.

Definition get_uk_global_pairs (uk_files : list string) : result pairs :=
  run ([], []) uk_files.

End Driver.

End Cubes.


Arguments mkCoord {V} coord_name coord_points.
Arguments coord_name {V} c.
Arguments coord_points {V} c.
Arguments mkCube {V Data} cube_name cube_coords cube_data.
Arguments cube_name {V Data} c.
Arguments cube_coords {V Data} c.
Arguments cube_data {V Data} c.
Arguments cube_coord {V Data} c name.
Arguments remove_coord {V Data} c name.
Arguments min_from {V} ltb m l.
Arguments max_from {V} ltb m l.
Arguments py_min {V} ltb l.
Arguments py_max {V} ltb l.
Arguments any_match {V Data} p c.
Arguments scan_coords {V Data} p c ds cur.
Arguments get_ground_level {V} ltb {Data} extract cube.
Arguments cube_named {V Data} cubes param.
Arguments last_time {V Data} cube.
Arguments drop_vertical {V Data} cube h.
Arguments aligned_pair {V} ltb {Data} extract iris_load unrotate
  get_uk_from_global param uk_path g_path uk_fname g_fname.
Arguments loop_body {V} ltb {Data} extract iris_load unrotate
  get_uk_from_global param g_files uk_path g_path st fname.
Arguments run {V} ltb {Data} extract iris_load unrotate
  get_uk_from_global param g_files uk_path g_path st uk_files.
Arguments get_uk_global_pairs {V} ltb {Data} extract iris_load unrotate
  get_uk_from_global param g_files uk_path g_path uk_files.

(** * Vocabulary of the statements *)

(** The part of a segment before its first dot (the segment without its
    extension). *)
Definition stem (s : string) : string := hd EmptyString (Py.split "." s).

(** Text that [int] accepts. *)
Definition parseable (s : string) : Prop := exists z, Py.int s = OK z.

(** The failure class of a malformed filename: the index error and the
    parse error of Python. *)
Definition format_error (e : exn) : bool :=
  match e with
  | IndexError | ValueError => true
  | _ => false
  end.

(** Fewer than four segments, or three last segments that are not all
    integers. *)
Definition malformed (fname : string) : Prop :=
  (length (Py.split "_" fname) < 4)%nat \/
  exists pre a b c,
    Py.split "_" fname = (pre ++ [a; b; c])%list /\
    ~ (parseable a /\ parseable b /\ parseable (stem c)).

(** Every character of [s] satisfies [p]. *)
Fixpoint all_chars (p : ascii -> bool) (s : string) : bool :=
  match s with
  | EmptyString => true
  | String c r => p c && all_chars p r
  end.

Definition is_digit (c : ascii) : bool :=
  let n := nat_of_ascii c in ((48 <=? n) && (n <=? 57))%nat.

Definition all_digits (s : string) : bool := all_chars is_digit s.

(** The characters [format] writes for an integer. *)
Definition sign_or_digit (c : ascii) : bool := Ascii.eqb c "-" || is_digit c.

Definition no_char (x : ascii) (s : string) : bool :=
  all_chars (fun c => negb (Ascii.eqb c x)) s.

(** [s] is the integer [z] written with exactly [w] decimal digits. *)
Definition fixed_width (w : nat) (z : Z) (s : string) : Prop :=
  String.length s = w /\ all_digits s = true /\ Py.int s = OK z.

(** [s] is the integer [z] written in decimal on [w] characters at least:
    digits only when [z] is not negative, a minus sign and digits when it
    is. *)
Definition min_width (w : nat) (z : Z) (s : string) : Prop :=
  (w <= String.length s)%nat /\ Py.int s = OK z /\
  (0 <= z -> all_digits s = true) /\
  (z < 0 -> exists t, s = String "-" t /\ all_digits t = true).

(** The name of a global file with the given fields. *)
Definition global_name (date hh mm lll : string) : string :=
  "prods_op_mogreps-g_" ++ date ++ "_" ++ hh ++ "_" ++ mm ++ "_" ++ lll ++ ".nc".

(** C2 as the specification words it: whatever the parsed fields, the three
    numeric fields of the global name have exactly 2, 2 and 3 digits. *)
Definition fixed_width_global_name (fname : string) : Prop :=
  forall d H M L,
    get_info fname = OK [PStr d; PInt H; PInt M; PInt L] ->
    exists hh mm lll,
      g_fname_of [PStr d; PInt H; PInt M; PInt L] = OK (global_name d hh mm lll) /\
      fixed_width 2 (H - 3) hh /\ fixed_width 2 M mm /\ fixed_width 3 (L + 3) lll.

(** ** Cubes *)

(** The name of a coordinate starts with the prefix [p]. *)
Definition named_like {V : Type} (p : string) (d : Coord V) : bool :=
  String.prefix p (coord_name d).

Definition single_line (s : string) : bool := all_chars (fun c => negb (is_newline c)) s.

(** Exactly one coordinate of the cube bears the name [n]: what
    [cube.coord(n)] needs to find a coordinate. *)
Definition borne_once {V Data : Type} (c : Cube V Data) (n : string) : Prop :=
  length (filter (fun d => String.eqb (coord_name d) n) (cube_coords c)) = 1%nat.

(** At every coordinate named like [p], the name that the pattern returns
    (the name cut at its first line feed) is borne by one coordinate. *)
Definition lookups_succeed {V Data : Type} (p : string) (c : Cube V Data) : Prop :=
  forall d, In d (cube_coords c) -> named_like p d = true ->
            borne_once c (until_newline (coord_name d)).

(** [v] is one of the values [l] and none of them is below (above) it. *)
Definition is_min {V : Type} (ltb : V -> V -> bool) (v : V) (l : list V) : Prop :=
  In v l /\ forall x, In x l -> ltb x v = false.

Definition is_max {V : Type} (ltb : V -> V -> bool) (v : V) (l : list V) : Prop :=
  In v l /\ forall x, In x l -> ltb v x = false.

(** [v] is the least (greatest) of the values [l]: one of them, and below
    (above) every other one. *)
Definition is_least {V : Type} (ltb : V -> V -> bool) (v : V) (l : list V) : Prop :=
  In v l /\ forall x, In x l -> x = v \/ ltb v x = true.

Definition is_greatest {V : Type} (ltb : V -> V -> bool) (v : V) (l : list V) : Prop :=
  In v l /\ forall x, In x l -> x = v \/ ltb x v = true.

(** [d] is the last coordinate of [ds] named like [p]. *)
Definition last_named_like {V : Type} (p : string) (ds : list (Coord V)) (d : Coord V)
    : Prop :=
  exists l1 l2, ds = (l1 ++ d :: l2)%list /\ named_like p d = true /\
                forallb (fun d' => negb (named_like p d')) l2 = true.

(** More than one coordinate of [ds] is named like [p]. *)
Definition several_named_like {V : Type} (p : string) (ds : list (Coord V)) : Prop :=
  (2 <= length (filter (named_like p) ds))%nat.

(** ** The driver *)

(** The list of one entry or of none. *)
Definition entry {A : Type} (o : option A) : list A :=
  match o with
  | Some p => [p]
  | None => []
  end.

Section DriverVocabulary.

Variable V : Type.
Variable ltb : V -> V -> bool.
Variable Data : Type.
Variable extract : Cube V Data -> string -> V -> result (option (Cube V Data)).
Variable iris_load : string -> result (list (Cube V Data)).
Variable unrotate : option (Cube V Data) -> option (Cube V Data) -> result (Cube V Data).
Variable get_uk_from_global : option (Cube V Data) -> Cube V Data -> result (Cube V Data).
Variable param : string.
Variable g_files : list string.
Variable uk_path g_path : string.

(** The output entry of a regional file, when it has one: its global file
    is listed and the two cubes could be aligned. *)
Definition kept_pair (fname : string) : option (Cube V Data * Cube V Data) :=
  match (info <- get_info fname ;; g_fname_of info) with
  | OK g_fname =>
      if Py.contains g_files g_fname then
        match aligned_pair ltb extract iris_load unrotate get_uk_from_global
                param uk_path g_path fname g_fname with
        | OK p => Some p
        | Raise _ => None
        end
      else None
  | Raise _ => None
  end.

(** The entries of a list of regional files, in the order of the list. *)
Definition kept (uk_files : list string) : list (Cube V Data * Cube V Data) :=
  flat_map (fun fname => entry (kept_pair fname)) uk_files.

End DriverVocabulary.

(** * A small archive

    Integer coordinate values, a cube payload that only tells the coordinate
    system, and stand-ins for the iris calls: enough to run the functions
    above on examples. *)

Module Sample.

Definition cube : Type := Cube Z (option string).

(** The coordinate [name] is cut down to the value [v]. *)
Definition extract (c : cube) (name : string) (v : Z) : result (option cube) :=
  match cube_coord c name with
  | OK d =>
      if existsb (Z.eqb v) (coord_points d) then
        OK (Some (mkCube (cube_name c)
                    (map (fun d' => if String.eqb (coord_name d') name
                                    then mkCoord name [v] else d')
                         (cube_coords c))
                    (cube_data c)))
      else OK None
  | Raise _ => OK None
  end.

(** A cube without a coordinate system has no pole to read. *)
Definition unrotate (uk g : option cube) : result cube :=
  match uk, g with
  | Some u, Some _ =>
      match cube_data u with
      | Some _ => OK (mkCube (cube_name u) (cube_coords u) (Some "GeogCS"))
      | None => Raise AttributeError
      end
  | _, _ => Raise AttributeError
  end.

Definition get_uk_from_global (g : option cube) (uk : cube) : result cube :=
  match g with
  | Some c => OK c
  | None => Raise AttributeError
  end.

Definition uk_cube (name : string) (times heights : list Z) (cs : option string) : cube :=
  mkCube name
    [mkCoord "time" times; mkCoord "height" heights;
     mkCoord "grid_latitude" [0; 1]; mkCoord "grid_longitude" [0; 1]] cs.

Definition g_cube (name : string) (times pressures : list Z) : cube :=
  mkCube name
    [mkCoord "time" times; mkCoord "pressure" pressures;
     mkCoord "latitude" [50; 51]; mkCoord "longitude" [0; 1]] (Some "GeogCS").

Definition uk_path : string := "../data/mogreps-uk/".
Definition g_path : string := "../data/mogreps-gg/".

Definition archive : list (string * list cube) :=
  [ ("../data/mogreps-uk/prods_op_mogreps-uk_20160107_03_00_003.nc",
     [uk_cube "air_pressure" [3; 6] [5] (Some "RotatedGeogCS");
      uk_cube "air_temperature" [3; 6] [10; 5; 20] (Some "RotatedGeogCS")]);
    ("../data/mogreps-gg/prods_op_mogreps-g_20160107_00_00_006.nc",
     [g_cube "air_temperature" [6; 9] [850; 1000; 500]]);
    ("../data/mogreps-uk/prods_op_mogreps-uk_20160107_09_00_003.nc",
     [uk_cube "air_temperature" [9; 12] [10; 5] (Some "RotatedGeogCS")]);
    ("../data/mogreps-uk/prods_op_mogreps-uk_20160107_15_00_003.nc",
     [uk_cube "air_temperature" [15; 18] [10; 5] (Some "RotatedGeogCS")]);
    ("../data/mogreps-gg/prods_op_mogreps-g_20160107_12_00_006.nc",
     [g_cube "air_temperature" [21] [850; 1000]]);
    ("../data/mogreps-uk/prods_op_mogreps-uk_20160107_21_00_003.nc",
     [uk_cube "air_temperature" [21; 24] [1; 2] (Some "RotatedGeogCS")]);
    ("../data/mogreps-gg/prods_op_mogreps-g_20160107_18_00_006.nc",
     [g_cube "air_temperature" [24; 27] [900; 700]]);
    ("../data/mogreps-uk/prods_op_mogreps-uk_20160108_03_00_003.nc",
     [uk_cube "air_temperature" [27; 30] [1; 2] None]);
    ("../data/mogreps-gg/prods_op_mogreps-g_20160108_00_00_006.nc",
     [g_cube "air_temperature" [30; 33] [900; 700]]) ].

Fixpoint lookup (l : list (string * list cube)) (path : string) : result (list cube) :=
  match l with
  | [] => Raise (OtherError "OSError")
  | (p, cs) :: t => if String.eqb p path then OK cs else lookup t path
  end.

Definition iris_load (path : string) : result (list cube) := lookup archive path.

Definition g_files : list string :=
  [ "prods_op_mogreps-g_20160107_00_00_006.nc";
    "prods_op_mogreps-g_20160107_12_00_006.nc";
    "prods_op_mogreps-g_20160107_18_00_006.nc";
    "prods_op_mogreps-g_20160108_00_00_006.nc" ].

Definition uk_files : list string :=
  [ "prods_op_mogreps-uk_20160107_03_00_003.nc";
    "prods_op_mogreps-uk_20160107_09_00_003.nc";
    "prods_op_mogreps-uk_20160107_15_00_003.nc";
    "prods_op_mogreps-uk_20160107_21_00_003.nc" ].

(** The functions of the module on this archive. *)
Definition pair_up (param : string) (files : list string) : result (list cube * list cube) :=
  get_uk_global_pairs Z.ltb extract iris_load unrotate get_uk_from_global
    param g_files uk_path g_path files.

Definition turn (param : string) (st : list cube * list cube) (fname : string)
    : result (list cube * list cube) :=
  loop_body Z.ltb extract iris_load unrotate get_uk_from_global
    param g_files uk_path g_path st fname.

Definition turns (param : string) (st : list cube * list cube) (files : list string)
    : result (list cube * list cube) :=
  run Z.ltb extract iris_load unrotate get_uk_from_global
    param g_files uk_path g_path st files.

Definition align (param uk_fname g_fname : string) : result (cube * cube) :=
  aligned_pair Z.ltb extract iris_load unrotate get_uk_from_global
    param uk_path g_path uk_fname g_fname.

Definition entries (param : string) (files : list string) : list (cube * cube) :=
  kept Z Z.ltb (option string) extract iris_load unrotate get_uk_from_global
    param g_files uk_path g_path files.

(** What the run of 03h and the run of 21h give. *)
Definition out_uk (t : Z) : cube :=
  mkCube "air_temperature"
    [mkCoord "time" [t]; mkCoord "grid_latitude" [0; 1];
     mkCoord "grid_longitude" [0; 1]] (Some "GeogCS").

Definition out_g (t : Z) : cube :=
  mkCube "air_temperature"
    [mkCoord "time" [t]; mkCoord "latitude" [50; 51]; mkCoord "longitude" [0; 1]]
    (Some "GeogCS").

(** A cube with two height coordinates and a pressure coordinate. *)
Definition tall : cube :=
  mkCube "air_temperature"
    [mkCoord "time" [3]; mkCoord "height" [10; 5; 20];
     mkCoord "pressure" [850; 1000; 500]; mkCoord "height_above_ground" [40; 2; 8]]
    (Some "GeogCS").

(** A cube with two pressure coordinates and no height. *)
Definition deep : cube :=
  mkCube "air_temperature"
    [mkCoord "pressure" [850; 1000; 500]; mkCoord "time" [3];
     mkCoord "pressure_at_sea_level" [990; 1013; 1002]]
    (Some "GeogCS").

(** A cube with no vertical coordinate. *)
Definition flat : cube :=
  mkCube "air_temperature"
    [mkCoord "time" [3]; mkCoord "latitude" [50; 51]; mkCoord "longitude" [0; 1]]
    (Some "GeogCS").

End Sample.

(** * Further vocabulary *)

(** [t] appended to the last string of a list. *)
Fixpoint app_last (l : list string) (t : string) : list string :=
  match l with
  | [] => []
  | [c] => [c ++ t]
  | x :: r => x :: app_last r t
  end.

(** A name in the file name convention, with any head and any extension. *)
Definition convention_name (head date hh mm lll ext : string) : string :=
  head ++ String "_" (date ++ String "_" (hh ++ String "_" (mm ++ String "_"
    (lll ++ String "." ext)))).

(** The coordinates of a cube are told apart by their names, which are one
    line each; nothing is asked of their points. *)
Definition well_named {V Data : Type} (c : Cube V Data) : Prop :=
  NoDup (map coord_name (cube_coords c)) /\
  Forall (fun d => single_line (coord_name d) = true) (cube_coords c).

(** Cubes with a shared name or with a coordinate without points. *)
Module Odd.

(** Two coordinates share the name "height"; a third height coordinate comes
    last. *)
Definition twice : Sample.cube :=
  mkCube "air_temperature"
    [mkCoord "height" [10; 5]; mkCoord "time" [3]; mkCoord "height" [1; 2];
     mkCoord "height_above_ground" [40; 2]]
    (Some "GeogCS").

(** The height coordinate has no point. *)
Definition hollow : Sample.cube :=
  mkCube "air_temperature"
    [mkCoord "time" [3]; mkCoord "height" []; mkCoord "pressure" [850; 1000]]
    (Some "GeogCS").

(** Two height coordinates, the last one without points. *)
Definition topless : Sample.cube :=
  mkCube "air_temperature"
    [mkCoord "height" [10; 5]; mkCoord "time" [3]; mkCoord "height_above_ground" []]
    (Some "GeogCS").

(** The name of the first coordinate holds a line feed: the pattern
    returns "height", which no coordinate bears. *)
Definition broken_name : Sample.cube :=
  mkCube "air_temperature"
    [mkCoord (String.append "height" (String (ascii_of_nat 10) "above"))
       [10; 5];
     mkCoord "height_above_ground" [40; 2]]
    (Some "GeogCS").

(** No height coordinate, and a pressure coordinate without points. *)
Definition vacuum : Sample.cube :=
  mkCube "air_temperature"
    [mkCoord "time" [3]; mkCoord "pressure" []]
    (Some "GeogCS").

(** No height coordinate, and two coordinates that share the name
    "pressure". *)
Definition isobars : Sample.cube :=
  mkCube "air_temperature"
    [mkCoord "pressure" [850; 1000]; mkCoord "time" [3]; mkCoord "pressure" [500]]
    (Some "GeogCS").

End Odd.

(** The global name computed for a regional file is among the global
    files. *)
Definition is_listed (g_files : list string) (fname : string) : bool :=
  match (info <- get_info fname ;; g_fname_of info) with
  | OK g_fname => Py.contains g_files g_fname
  | Raise _ => false
  end.

(** * [list_files]

    The object store is reached through boto: [s3_connection] is the
    [S3Connection] constructor, which reads the process environment,
    [get_bucket] is [conn.get_bucket] and [bucket_list] is [bucket.list], a
    lazy listing.  The iterator over a listing gives a key, or is exhausted
    ([StopIteration]), or fails with the error of a request. *)

Record S3Key : Type := mkKey { key : string }.

Inductive listing : Type :=
| Exhausted
| Next (k : S3Key) (rest : listing)
| Broken (e : exn).

(** [os.environ] *)
Definition environ : Type := string -> option string.

Definition environ_set (env : environ) (name value : string) : environ :=
  fun n => if String.eqb n name then Some value else env n.

Section ListFiles.

Variable Conn Bucket : Type.
Variable s3_connection : environ -> string -> result Conn.
Variable get_bucket : Conn -> string -> result Bucket.
Variable bucket_list : Bucket -> string -> listing.

(** [for i in range(n)]: [next(keys)] is appended to [results]; a
    [StopIteration] is passed over and the loop goes on, anything else
    leaves the function. *)
Fixpoint take_keys (count : nat) (keys : listing) (results : list S3Key)
    : result (list S3Key) :=
  match count with
  | O => OK results
  | S count' =>
      match keys with
      | Next k rest => take_keys count' rest (results ++ [k])%list
      | Exhausted => take_keys count' Exhausted results
      | Broken e => Raise e
      end
  end.

(** The environment after the call, and what the call returns or raises. *)
Definition list_files (env : environ) (bucket prefix : string) (n : Z)
    : environ * result (list string) :=
  let env := environ_set env "S3_USE_SIGV4" "True" in
  (env,
   conn <- s3_connection env "s3.eu-west-2.amazonaws.com" ;;
   bucket <- get_bucket conn bucket ;;
   let keys := bucket_list bucket prefix in
   results <- take_keys (Z.to_nat n) keys [] ;;
   OK (map key results)).

End ListFiles.

Arguments list_files {Conn Bucket} s3_connection get_bucket bucket_list env bucket prefix n.

(** The listing that gives the keys [ks] and goes on as [tail]. *)
Fixpoint listing_of (ks : list S3Key) (tail : listing) : listing :=
  match ks with
  | [] => tail
  | k :: r => Next k (listing_of r tail)
  end.

(** * [get_uk_from_global]

    [intersection] is [cube.intersection] of iris for one coordinate and a
    pair of bounds. *)

Module Grid.

Section Crop.

Variable V : Type.
Variable Data : Type.
Variable intersection : Cube V Data -> string -> V * V -> result (Cube V Data).

(** [cube.coord(name).points[i]] *)
Definition point_of (cube : Cube V Data) (name : string) (i : Z) : result V :=
  c <- cube_coord cube name ;;
  Py.getitem (coord_points c) i.

Definition get_uk_from_global (g_cube : option (Cube V Data)) (uk_cube : Cube V Data)
    : result (Cube V Data) :=
  minlat <- point_of uk_cube "latitude" 0 ;;
  maxlat <- point_of uk_cube "latitude" (-1) ;;
  minlon <- point_of uk_cube "longitude" 0 ;;
  maxlon <- point_of uk_cube "longitude" (-1) ;;
  g <- attr g_cube ;;
  g_lat <- intersection g "latitude" (minlat, maxlat) ;;
  g_cube_uk <- intersection g_lat "longitude" (minlon, maxlon) ;;
  OK g_cube_uk.

End Crop.

Arguments point_of {V Data} cube name i.
Arguments get_uk_from_global {V Data} intersection g_cube uk_cube.

End Grid.

(** Points in ascending order, and in descending order, for [ltb]. *)
Definition ascending {V : Type} (ltb : V -> V -> bool) (l : list V) : Prop :=
  StronglySorted (fun a b => ltb b a = false) l.

Definition descending {V : Type} (ltb : V -> V -> bool) (l : list V) : Prop :=
  StronglySorted (fun a b => ltb a b = false) l.

(** A bucket of five keys, and one whose listing breaks after two. *)
Module Store.

Definition names : list string :=
  ["prods_op_mogreps-uk_20160107_03_00_003.nc";
   "prods_op_mogreps-uk_20160107_03_00_006.nc";
   "prods_op_mogreps-uk_20160107_03_01_003.nc";
   "prods_op_mogreps-uk_20160107_03_01_006.nc";
   "prods_op_mogreps-uk_20160107_09_00_003.nc"].

Definition s3_connection (env : environ) (host : string) : result unit :=
  match env "S3_USE_SIGV4" with
  | Some _ => OK tt
  | None => Raise (OtherError "HostRequiredError")
  end.

Definition get_bucket (conn : unit) (bucket : string) : result string :=
  if String.eqb bucket "mogreps" || String.eqb bucket "flaky" then OK bucket
  else Raise (OtherError "S3ResponseError").

Definition bucket_list (bucket prefix : string) : listing :=
  if String.eqb bucket "flaky"
  then listing_of (map mkKey (firstn 2 names)) (Broken (OtherError "S3ResponseError"))
  else listing_of (map mkKey (filter (String.prefix prefix) names)) Exhausted.

Definition no_env : environ := fun _ => None.

Definition ls (bucket prefix : string) (n : Z) : environ * result (list string) :=
  list_files s3_connection get_bucket bucket_list no_env bucket prefix n.

(** A global cube is cropped by keeping the points within the bounds. *)
Definition intersection (c : Sample.cube) (name : string) (b : Z * Z)
    : result Sample.cube :=
  OK (mkCube (cube_name c)
        (map (fun d => if String.eqb (coord_name d) name
                       then mkCoord name
                              (filter (fun x => (fst b <=? x) && (x <=? snd b))
                                      (coord_points d))
                       else d)
             (cube_coords c))
        (cube_data c)).

Definition uk_box : Sample.cube :=
  mkCube "air_temperature"
    [mkCoord "time" [6]; mkCoord "latitude" [48; 50; 52];
     mkCoord "longitude" [-4; -2; 0; 2]] (Some "GeogCS").

Definition globe : Sample.cube :=
  mkCube "air_temperature"
    [mkCoord "time" [6]; mkCoord "latitude" [40; 45; 50; 55; 60];
     mkCoord "longitude" [-10; -5; 0; 5; 10]] (Some "GeogCS").

End Store.

(** An archive whose regional cube has no time coordinate. *)
Module Timeless.

Definition uk : Sample.cube :=
  mkCube "air_temperature"
    [mkCoord "height" [10; 5]; mkCoord "grid_latitude" [0; 1];
     mkCoord "grid_longitude" [0; 1]] (Some "RotatedGeogCS").

Definition iris_load (path : string) : result (list Sample.cube) :=
  if String.eqb path "../data/mogreps-uk/prods_op_mogreps-uk_20160107_03_00_003.nc"
  then OK [uk]
  else Sample.iris_load path.

Definition turns (st : list Sample.cube * list Sample.cube) (files : list string)
    : result (list Sample.cube * list Sample.cube) :=
  run Z.ltb Sample.extract iris_load Sample.unrotate Sample.get_uk_from_global
    "air_temperature" Sample.g_files Sample.uk_path Sample.g_path st files.

End Timeless.
(** * Facts about the Python primitives *)

Section ListFacts.

Context {A : Type}.
#[local] Open Scope list_scope.

Lemma norm_index_neg (len : nat) (k : Z) :
  k < 0 -> Py.norm_index len k = k + Z.of_nat len.
Proof.
  intros Hk. unfold Py.norm_index.
  destruct (Z.ltb_spec k 0); [reflexivity | lia].
Qed.

Lemma norm_index_nonneg (len : nat) (k : Z) :
  0 <= k -> Py.norm_index len k = k.
Proof.
  intros Hk. unfold Py.norm_index.
  destruct (Z.ltb_spec k 0); [lia | reflexivity].
Qed.

Lemma getitem_from_end (l r : list A) (x : A) :
  Py.getitem (l ++ x :: r) (- Z.of_nat (S (length r))) = OK x.
Proof.
  unfold Py.getitem.
  rewrite norm_index_neg by lia.
  rewrite length_app. cbn [length].
  replace (- Z.of_nat (S (length r)) + Z.of_nat (length l + S (length r)))
    with (Z.of_nat (length l)) by lia.
  destruct (Z.ltb_spec (Z.of_nat (length l)) 0); [lia |].
  destruct (Z.leb_spec (Z.of_nat (length l + S (length r))) (Z.of_nat (length l)));
    [lia |].
  cbn [orb]. rewrite Nat2Z.id.
  rewrite nth_error_app2 by lia.
  rewrite Nat.sub_diag. reflexivity.
Qed.

Lemma getitem_short (l : list A) (k : Z) :
  k < - Z.of_nat (length l) -> Py.getitem l k = Raise IndexError.
Proof.
  intros Hk. unfold Py.getitem.
  rewrite norm_index_neg by lia.
  destruct (Z.ltb_spec (k + Z.of_nat (length l)) 0); [reflexivity | lia].
Qed.

Lemma getitem_head (x : A) (l : list A) : Py.getitem (x :: l) 0 = OK x.
Proof.
  unfold Py.getitem, Py.norm_index. cbn [Z.ltb Z.compare length].
  destruct (Z.leb_spec (Z.of_nat (S (length l))) 0); [lia | reflexivity].
Qed.

Lemma getitem_nat (l : list A) (n : nat) (x : A) :
  nth_error l n = Some x -> Py.getitem l (Z.of_nat n) = OK x.
Proof.
  intros Hn. unfold Py.getitem.
  rewrite norm_index_nonneg by lia.
  assert (n < length l)%nat by (apply nth_error_Some; congruence).
  destruct (Z.ltb_spec (Z.of_nat n) 0); [lia |].
  destruct (Z.leb_spec (Z.of_nat (length l)) (Z.of_nat n)); [lia |].
  cbn [orb]. rewrite Nat2Z.id, Hn. reflexivity.
Qed.

Lemma update_length (l : list A) (n : nat) (v : A) :
  length (Py.update l n v) = length l.
Proof.
  revert n; induction l as [| a l IH]; intros [| n]; cbn; auto.
Qed.

Lemma update_app (l r : list A) (x v : A) :
  Py.update (l ++ x :: r) (length l) v = l ++ v :: r.
Proof.
  induction l as [| a l IH]; cbn; [reflexivity | now rewrite IH].
Qed.

Lemma setitem_last (l : list A) (x v : A) :
  Py.setitem (l ++ [x]) (-1) v = OK (l ++ [v]).
Proof.
  unfold Py.setitem.
  rewrite norm_index_neg by lia.
  rewrite length_app. cbn [length].
  replace (-1 + Z.of_nat (length l + 1)) with (Z.of_nat (length l)) by lia.
  destruct (Z.ltb_spec (Z.of_nat (length l)) 0); [lia |].
  destruct (Z.leb_spec (Z.of_nat (length l + 1)) (Z.of_nat (length l))); [lia |].
  cbn [orb]. rewrite Nat2Z.id, update_app. reflexivity.
Qed.

Lemma slice_from_end (l r : list A) (x : A) :
  Py.slice_from (l ++ x :: r) (- Z.of_nat (S (length r))) = x :: r.
Proof.
  unfold Py.slice_from.
  rewrite norm_index_neg by lia.
  rewrite length_app. cbn [length].
  replace (Z.to_nat (Z.max 0 (- Z.of_nat (S (length r))
                               + Z.of_nat (length l + S (length r)))))
    with (length l) by lia.
  rewrite skipn_app, skipn_all, Nat.sub_diag. reflexivity.
Qed.

Lemma list_snoc (l : list A) : l <> [] -> exists l' x, l = l' ++ [x].
Proof.
  intros Hl. destruct (exists_last Hl) as (l' & x & ->). eauto.
Qed.

End ListFacts.

Lemma split_nonempty (sep : ascii) (s : string) : Py.split sep s <> [].
Proof.
  destruct s as [| c r]; cbn; [discriminate |].
  destruct (Ascii.eqb c sep); [discriminate |].
  destruct (Py.split sep r); discriminate.
Qed.

Lemma getitem_last {A : Type} (l : list A) (x : A) :
  Py.getitem (l ++ [x])%list (-1) = OK x.
Proof. exact (getitem_from_end l [] x). Qed.

Lemma getitem_fourth_last {A : Type} (l : list A) (d a b c : A) :
  Py.getitem (l ++ [d; a; b; c])%list (-4) = OK d.
Proof. exact (getitem_from_end l [a; b; c] d). Qed.

Lemma slice_last_three {A : Type} (l : list A) (d a b c : A) :
  Py.slice_from (l ++ [d; a; b; c])%list (-3) = [a; b; c].
Proof.
  change (l ++ [d; a; b; c])%list with (l ++ [d] ++ [a; b; c])%list.
  rewrite app_assoc. exact (slice_from_end (l ++ [d]) [b; c] a).
Qed.

Lemma getitem_stem (c : string) : Py.getitem (Py.split "." c) 0 = OK (stem c).
Proof.
  unfold stem. pose proof (split_nonempty "." c) as Hne.
  destruct (Py.split "." c) as [| h t]; [congruence |].
  apply getitem_head.
Qed.

Lemma int_raises (s : string) (e : exn) : Py.int s = Raise e -> e = ValueError.
Proof.
  unfold Py.int.
  destruct (match Py.strip s with
            | String c r => if Ascii.eqb c "-" then (true, r)
                            else if Ascii.eqb c "+" then (false, r)
                            else (false, Py.strip s)
            | EmptyString => (false, Py.strip s)
            end) as [neg body].
  destruct (Py.digits_value body); congruence.
Qed.

(** * [get_info] *)

(** What [get_info] does once the last segment is set apart. *)
Lemma get_info_segments (fname : string) (pre : list string) (c : string) :
  Py.split "_" fname = (pre ++ [c])%list ->
  get_info fname =
    (date <- Py.getitem (pre ++ [stem c])%list (-4) ;;
     ints <- mapM Py.int (Py.slice_from (pre ++ [stem c])%list (-3)) ;;
     OK (PStr date :: map PInt ints)%list).
Proof.
  intros Hs. unfold get_info. rewrite Hs.
  rewrite getitem_last. cbn [bind].
  rewrite getitem_stem. cbn [bind].
  rewrite setitem_last. reflexivity.
Qed.

Lemma get_info_too_short (fname : string) :
  (length (Py.split "_" fname) < 4)%nat -> get_info fname = Raise IndexError.
Proof.
  intros Hlen.
  destruct (list_snoc (Py.split "_" fname) (split_nonempty _ _)) as (pre & c & Hs).
  rewrite (get_info_segments _ _ _ Hs).
  rewrite Hs, length_app in Hlen. cbn [length] in Hlen.
  rewrite (getitem_short (pre ++ [stem c])%list (-4)); [reflexivity |].
  rewrite length_app. cbn [length]. lia.
Qed.

(** With four segments or more, [get_info] is the parse of the last three. *)
Lemma get_info_four (fname : string) (pre : list string) (d a b c : string) :
  Py.split "_" fname = (pre ++ [d; a; b; c])%list ->
  get_info fname =
    (h <- Py.int a ;; m <- Py.int b ;; l <- Py.int (stem c) ;;
     OK [PStr d; PInt h; PInt m; PInt l]).
Proof.
  intros Hs.
  rewrite (get_info_segments fname (pre ++ [d; a; b])%list c)
    by (rewrite Hs, <- app_assoc; reflexivity).
  rewrite <- app_assoc. cbn [Datatypes.app].
  rewrite getitem_fourth_last, slice_last_three. cbn [bind mapM].
  destruct (Py.int a); cbn [bind]; [| reflexivity].
  destruct (Py.int b); cbn [bind]; [| reflexivity].
  destruct (Py.int (stem c)); reflexivity.
Qed.

(** The list that [get_info] returns is a date and three integers, read
    from the last four segments. *)
Lemma get_info_shape (fname : string) (info : list pyval) :
  get_info fname = OK info ->
  exists pre d a b c h m l,
    Py.split "_" fname = (pre ++ [d; a; b; c])%list /\
    Py.int a = OK h /\ Py.int b = OK m /\ Py.int (stem c) = OK l /\
    info = [PStr d; PInt h; PInt m; PInt l].
Proof.
  intros Hinfo.
  destruct (Nat.lt_ge_cases (length (Py.split "_" fname)) 4) as [Hlt | Hge].
  - rewrite (get_info_too_short _ Hlt) in Hinfo. discriminate.
  - destruct (list_snoc (Py.split "_" fname) (split_nonempty _ _)) as (l3 & c & H3).
    destruct l3 as [| x3 t3] using rev_ind;
      [rewrite H3 in Hge; cbn in Hge; lia | clear IHt3].
    destruct t3 as [| x2 t2] using rev_ind;
      [rewrite H3 in Hge; cbn in Hge; lia | clear IHt2].
    destruct t2 as [| x1 t1] using rev_ind;
      [rewrite H3 in Hge; cbn in Hge; lia | clear IHt1].
    assert (Py.split "_" fname = (t1 ++ [x1; x2; x3; c])%list) as Hs
      by (rewrite H3, <- !app_assoc; reflexivity).
    rewrite (get_info_four _ _ _ _ _ _ Hs) in Hinfo.
    destruct (Py.int x2) as [h |] eqn:Eh; cbn [bind] in Hinfo; [| discriminate].
    destruct (Py.int x3) as [m |] eqn:Em; cbn [bind] in Hinfo; [| discriminate].
    destruct (Py.int (stem c)) as [l |] eqn:El; cbn [bind] in Hinfo; [| discriminate].
    exists t1, x1, x2, x3, c, h, m, l.
    repeat split; try assumption. congruence.
Qed.

(** C4: a filename with fewer than four underscore-delimited segments, or
    whose last three segments (the final one without its extension) are not
    all integers, makes [get_info] fail with an error of the malformed-input
    class instead of returning: an [IndexError] in the first case, a
    [ValueError] when there are four segments or more. *)
Theorem get_info_malformed (fname : string) :
  malformed fname ->
  exists e, get_info fname = Raise e /\ format_error e = true /\
    ((length (Py.split "_" fname) < 4)%nat -> e = IndexError) /\
    ((4 <= length (Py.split "_" fname))%nat -> e = ValueError).
Proof.
  assert (forall f, (length (Py.split "_" f) < 4)%nat ->
            exists e, get_info f = Raise e /\ format_error e = true /\
              ((length (Py.split "_" f) < 4)%nat -> e = IndexError) /\
              ((4 <= length (Py.split "_" f))%nat -> e = ValueError)) as Hshort.
  { intros f Hf. exists IndexError. rewrite (get_info_too_short _ Hf).
    repeat split; intros; first [reflexivity | exfalso; lia]. }
  intros [Hlt | (pre & a & b & c & Hs & Hbad)]; [now apply Hshort |].
  destruct pre as [| d pre' _] using rev_ind.
  - apply Hshort. rewrite Hs. cbn. lia.
  - assert (Py.split "_" fname = (pre' ++ [d; a; b; c])%list) as Hs'
      by (rewrite Hs, <- app_assoc; reflexivity).
    assert (4 <= length (Py.split "_" fname))%nat as Hlong
      by (rewrite Hs', length_app; cbn; lia).
    exists ValueError. rewrite (get_info_four _ _ _ _ _ _ Hs').
    split; [| repeat split; intros; first [reflexivity | exfalso; lia]].
    destruct (Py.int a) as [h | e1] eqn:Ea; cbn [bind];
      [| now rewrite (int_raises _ _ Ea)].
    destruct (Py.int b) as [m | e2] eqn:Eb; cbn [bind];
      [| now rewrite (int_raises _ _ Eb)].
    destruct (Py.int (stem c)) as [l | e3] eqn:Ec; cbn [bind];
      [| now rewrite (int_raises _ _ Ec)].
    exfalso. apply Hbad. unfold parseable. repeat split; eauto.
Qed.

(** A filename of two segments, and one whose member field is not a number. *)
Lemma get_info_malformed_witness :
  (exists e, get_info "mogreps_003.nc" = Raise e /\ format_error e = true /\
     ((length (Py.split "_" "mogreps_003.nc") < 4)%nat -> e = IndexError) /\
     ((4 <= length (Py.split "_" "mogreps_003.nc"))%nat -> e = ValueError)) /\
  (exists e, get_info "prods_op_mogreps-g_20160107_00_xx_003.nc" = Raise e /\
     format_error e = true /\
     ((length (Py.split "_" "prods_op_mogreps-g_20160107_00_xx_003.nc") < 4)%nat
        -> e = IndexError) /\
     ((4 <= length (Py.split "_" "prods_op_mogreps-g_20160107_00_xx_003.nc"))%nat
        -> e = ValueError)).
Proof.
  split.
  - apply (get_info_malformed "mogreps_003.nc").
    left. vm_compute. lia.
  - apply (get_info_malformed "prods_op_mogreps-g_20160107_00_xx_003.nc").
    right. exists ["prods"; "op"; "mogreps-g"; "20160107"], "00", "xx", "003.nc".
    split; [reflexivity |].
    intros (_ & (z & Hz) & _). vm_compute in Hz. discriminate.
Defined.

(** Nothing else makes [get_info] fail: a filename that is not malformed
    is parsed. *)
Lemma get_info_well_formed (fname : string) :
  (exists info, get_info fname = OK info) \/ malformed fname.
Proof.
  destruct (get_info fname) as [info | e] eqn:Hinfo; [left; eauto | right].
  destruct (Nat.lt_ge_cases (length (Py.split "_" fname)) 4) as [Hlt | Hge];
    [now left | right].
  destruct (list_snoc (Py.split "_" fname) (split_nonempty _ _)) as (l3 & c & H3).
  destruct l3 as [| b l2 _] using rev_ind;
    [rewrite H3 in Hge; cbn in Hge; lia |].
  destruct l2 as [| a l1 _] using rev_ind;
    [rewrite H3 in Hge; cbn in Hge; lia |].
  destruct l1 as [| d pre _] using rev_ind;
    [rewrite H3 in Hge; cbn in Hge; lia |].
  exists (pre ++ [d])%list, a, b, c.
  split; [rewrite H3, <- !app_assoc; reflexivity |].
  intros ((h & Hh) & (m & Hm) & (l & Hl)).
  rewrite (get_info_four fname pre d a b c) in Hinfo
    by (rewrite H3, <- !app_assoc; reflexivity).
  rewrite Hh, Hm, Hl in Hinfo. discriminate.
Qed.

(** C5: the example of the docstring.  The date is kept as text and the
    three segments after it are read as the integers 0, 0 and 3. *)
Theorem get_info_example :
  get_info "prods_op_mogreps-g_20160107_00_00_003.nc"
  = OK [PStr "20160107"; PInt 0; PInt 0; PInt 3].
Proof. vm_compute. reflexivity. Qed.

(** * Decimal numerals: [format] then [int] *)

Lemma all_chars_app (p : ascii -> bool) (s t : string) :
  all_chars p (s ++ t) = all_chars p s && all_chars p t.
Proof.
  induction s as [| c r IH]; cbn; [reflexivity |].
  now rewrite IH, andb_assoc.
Qed.

Lemma all_chars_impl (p q : ascii -> bool) (s : string) :
  (forall c, p c = true -> q c = true) ->
  all_chars p s = true -> all_chars q s = true.
Proof.
  intros Hpq. induction s as [| c r IH]; cbn; [reflexivity |].
  intros [Hc Hr]%andb_prop. rewrite (Hpq _ Hc), (IH Hr). reflexivity.
Qed.

Lemma all_digits_uint (u : uint) : all_digits (NilEmpty.string_of_uint u) = true.
Proof. induction u; cbn; auto. Qed.

Lemma all_digits_zeros (k : nat) : all_digits (Py.zeros k) = true.
Proof. induction k; cbn; auto. Qed.

Lemma length_zeros (k : nat) : String.length (Py.zeros k) = k.
Proof. induction k; cbn; auto. Qed.

Lemma string_length_app (s t : string) :
  String.length (s ++ t) = (String.length s + String.length t)%nat.
Proof. induction s; cbn; auto. Qed.

Lemma digits_of_nonempty (n : N) : Py.digits_of n <> EmptyString.
Proof.
  unfold Py.digits_of. destruct n as [| p]; cbn; [discriminate |].
  pose proof (DecimalPos.Unsigned.to_uint_nonnil p) as Hp.
  destruct (Pos.to_uint p); cbn; congruence.
Qed.

Lemma all_digits_zfill (w : nat) (n : N) :
  all_digits (Py.zfill w (Py.digits_of n)) = true.
Proof.
  unfold Py.zfill, all_digits. rewrite all_chars_app.
  apply andb_true_intro. split.
  - apply all_digits_zeros.
  - apply all_digits_uint.
Qed.

Lemma length_zfill (w : nat) (s : string) :
  String.length (Py.zfill w s) = Nat.max w (String.length s).
Proof.
  unfold Py.zfill. rewrite string_length_app, length_zeros. lia.
Qed.

Lemma zfill_nonempty (w : nat) (n : N) : Py.zfill w (Py.digits_of n) <> EmptyString.
Proof.
  intros He. apply (f_equal String.length) in He.
  rewrite length_zfill in He. cbn in He.
  pose proof (digits_of_nonempty n) as Hn.
  destruct (Py.digits_of n); [congruence | cbn in He; lia].
Qed.

Lemma uint_of_zeros (k : nat) (s : string) :
  NilEmpty.uint_of_string (Py.zeros k ++ s)
  = option_map (Nat.iter k D0) (NilEmpty.uint_of_string s).
Proof.
  induction k as [| k IH]; cbn.
  - now destruct (NilEmpty.uint_of_string s).
  - rewrite IH. now destruct (NilEmpty.uint_of_string s).
Qed.

Lemma of_uint_zeros (k : nat) (u : uint) : N.of_uint (Nat.iter k D0 u) = N.of_uint u.
Proof. induction k as [| k IH]; [reflexivity | exact IH]. Qed.

Lemma digits_value_zfill (w : nat) (n : N) :
  Py.digits_value (Py.zfill w (Py.digits_of n)) = Some n.
Proof.
  unfold Py.digits_value, NilZero.uint_of_string.
  pose proof (zfill_nonempty w n) as Hne.
  destruct (Py.zfill w (Py.digits_of n)) as [| c r] eqn:Ez; [congruence |].
  rewrite <- Ez. unfold Py.zfill, Py.digits_of.
  rewrite uint_of_zeros, NilEmpty.usu. cbn [option_map].
  now rewrite of_uint_zeros, DecimalN.Unsigned.of_to.
Qed.

(** Text without white space is left as it is by [strip]. *)
Lemma strip_id (s : string) :
  all_chars (fun c => negb (Py.is_space c)) s = true -> Py.strip s = s.
Proof.
  intros Hs. unfold Py.strip.
  assert (Py.lstrip s = s) as ->.
  { destruct s as [| c r]; [reflexivity |]. cbn in *.
    apply andb_prop in Hs as [Hc _].
    destruct (Py.is_space c); [discriminate | reflexivity]. }
  induction s as [| c r IH]; [reflexivity |].
  cbn in *. apply andb_prop in Hs as [Hc Hr].
  rewrite (IH Hr).
  destruct r; [| reflexivity].
  destruct (Py.is_space c); [discriminate | reflexivity].
Qed.

Lemma sign_or_digit_no_space (c : ascii) :
  sign_or_digit c = true -> negb (Py.is_space c) = true.
Proof.
  destruct c as [[] [] [] [] [] [] [] []]; vm_compute; congruence.
Qed.

Lemma sign_or_digit_no_char (x c : ascii) :
  sign_or_digit x = false -> sign_or_digit c = true -> negb (Ascii.eqb c x) = true.
Proof.
  intros Hx Hc. destruct (Ascii.eqb_spec c x) as [-> |]; [congruence | reflexivity].
Qed.

Lemma is_digit_sign_or_digit (c : ascii) : is_digit c = true -> sign_or_digit c = true.
Proof. intros Hc. unfold sign_or_digit. rewrite Hc. apply orb_true_r. Qed.

Lemma format_0d_chars (w : nat) (z : Z) :
  all_chars sign_or_digit (Py.format_0d w z) = true.
Proof.
  unfold Py.format_0d. destruct (z <? 0); cbn [all_chars].
  - apply (all_chars_impl _ _ _ is_digit_sign_or_digit), all_digits_zfill.
  - apply (all_chars_impl _ _ _ is_digit_sign_or_digit), all_digits_zfill.
Qed.

Lemma digit_not_sign (c : ascii) :
  is_digit c = true -> Ascii.eqb c "-" = false /\ Ascii.eqb c "+" = false.
Proof.
  destruct c as [[] [] [] [] [] [] [] []]; vm_compute; intuition congruence.
Qed.

(** [int] reads back what [format] wrote, whatever the width. *)
Lemma int_format_0d (w : nat) (z : Z) : Py.int (Py.format_0d w z) = OK z.
Proof.
  unfold Py.int.
  rewrite strip_id
    by (apply (all_chars_impl _ _ _ sign_or_digit_no_space), format_0d_chars).
  unfold Py.format_0d. destruct (Z.ltb_spec z 0) as [Hneg | Hpos].
  - cbn. rewrite digits_value_zfill. f_equal. lia.
  - pose proof (zfill_nonempty w (Z.to_N z)) as Hne.
    pose proof (all_digits_zfill w (Z.to_N z)) as Hd.
    destruct (Py.zfill w (Py.digits_of (Z.to_N z))) as [| c r] eqn:Ez;
      [congruence |].
    cbn in Hd. apply andb_prop in Hd as [Hc _].
    destruct (digit_not_sign c Hc) as [-> ->].
    rewrite <- Ez, digits_value_zfill. f_equal. lia.
Qed.

Lemma length_format_0d (w : nat) (z : Z) :
  (w <= String.length (Py.format_0d w z))%nat.
Proof.
  unfold Py.format_0d. destruct (z <? 0); cbn [String.length];
    rewrite length_zfill; lia.
Qed.

Lemma format_0d_min_width (w : nat) (z : Z) : min_width w z (Py.format_0d w z).
Proof.
  unfold min_width. split; [apply length_format_0d |].
  split; [apply int_format_0d |].
  unfold Py.format_0d. split; intros Hz.
  - destruct (Z.ltb_spec z 0); [lia |]. apply all_digits_zfill.
  - destruct (Z.ltb_spec z 0); [| lia].
    eexists. split; [reflexivity |]. apply all_digits_zfill.
Qed.

(** Numbers below a hundred take two digits at most, numbers below a
    thousand three. *)
Lemma length_digits_of (n : N) :
  (n < 1000)%N ->
  (String.length (Py.digits_of n) <= 3)%nat /\
  ((n < 100)%N -> (String.length (Py.digits_of n) <= 2)%nat).
Proof.
  intros Hn.
  assert (forallb (fun k => (String.length (Py.digits_of (N.of_nat k)) <=? 3)%nat
                            && ((100 <=? k)%nat
                                || (String.length (Py.digits_of (N.of_nat k)) <=? 2)%nat))
                  (seq 0 1000) = true) as Hall by (vm_compute; reflexivity).
  rewrite forallb_forall in Hall.
  specialize (Hall (N.to_nat n)).
  rewrite N2Nat.id in Hall.
  destruct (andb_prop _ _ (Hall ltac:(apply in_seq; lia))) as [H3 H2].
  split; [apply Nat.leb_le, H3 |].
  intros H100. apply orb_prop in H2 as [H2 | H2].
  - apply Nat.leb_le in H2. lia.
  - apply Nat.leb_le, H2.
Qed.

Lemma format_0d_fixed_2 (z : Z) : 0 <= z <= 99 -> fixed_width 2 z (Py.format_0d 2 z).
Proof.
  intros Hz. unfold fixed_width.
  split; [| split; [| apply int_format_0d]].
  - unfold Py.format_0d. destruct (Z.ltb_spec z 0); [lia |].
    rewrite length_zfill.
    destruct (length_digits_of (Z.to_N z)) as [_ H2]; [lia |].
    specialize (H2 ltac:(lia)). lia.
  - unfold Py.format_0d. destruct (Z.ltb_spec z 0); [lia |]. apply all_digits_zfill.
Qed.

Lemma format_0d_fixed_3 (z : Z) : 0 <= z <= 999 -> fixed_width 3 z (Py.format_0d 3 z).
Proof.
  intros Hz. unfold fixed_width.
  split; [| split; [| apply int_format_0d]].
  - unfold Py.format_0d. destruct (Z.ltb_spec z 0); [lia |].
    rewrite length_zfill.
    destruct (length_digits_of (Z.to_N z)) as [H3 _]; [lia |]. lia.
  - unfold Py.format_0d. destruct (Z.ltb_spec z 0); [lia |]. apply all_digits_zfill.
Qed.

(** * [split] *)

Lemma split_no_sep (sep : ascii) (s : string) :
  no_char sep s = true -> Py.split sep s = [s].
Proof.
  induction s as [| c r IH]; cbn; [reflexivity |].
  intros [Hc Hr]%andb_prop.
  apply negb_true_iff in Hc. rewrite Hc, (IH Hr). reflexivity.
Qed.

Lemma split_app (sep : ascii) (a b : string) :
  no_char sep a = true ->
  Py.split sep (a ++ String sep b) = a :: Py.split sep b.
Proof.
  induction a as [| c r IH]; cbn.
  - intros _. now rewrite Ascii.eqb_refl.
  - intros [Hc Hr]%andb_prop.
    apply negb_true_iff in Hc. rewrite Hc, (IH Hr). reflexivity.
Qed.

(** No segment of a split holds the separator. *)
Lemma split_segments (sep : ascii) (s : string) :
  Forall (fun x => no_char sep x = true) (Py.split sep s).
Proof.
  induction s as [| c r IH]; cbn.
  - constructor; [reflexivity | constructor].
  - destruct (Ascii.eqb c sep) eqn:Ec.
    + constructor; [reflexivity | exact IH].
    + destruct (Py.split sep r) as [| h t].
      * constructor; [| constructor]. unfold no_char. cbn. now rewrite Ec.
      * inversion IH as [| ? ? Hh Ht]; subst.
        constructor; [| exact Ht]. unfold no_char in *. cbn. now rewrite Ec, Hh.
Qed.

Lemma no_char_app (x : ascii) (s t : string) :
  no_char x (s ++ t) = no_char x s && no_char x t.
Proof. apply all_chars_app. Qed.

Lemma format_0d_no_char (x : ascii) (w : nat) (z : Z) :
  sign_or_digit x = false -> no_char x (Py.format_0d w z) = true.
Proof.
  intros Hx. unfold no_char.
  apply (all_chars_impl sign_or_digit); [| apply format_0d_chars].
  intros c. apply sign_or_digit_no_char, Hx.
Qed.

Lemma stem_ext (s ext : string) : no_char "." s = true -> stem (s ++ String "." ext) = s.
Proof. intros Hs. unfold stem. now rewrite split_app. Qed.

(** The segments of a global file name. *)
Lemma split_global_name (d hh mm lll : string) :
  no_char "_" d = true -> no_char "_" hh = true ->
  no_char "_" mm = true -> no_char "_" lll = true ->
  Py.split "_" (global_name d hh mm lll)
  = ["prods"; "op"; "mogreps-g"; d; hh; mm; lll ++ ".nc"].
Proof.
  intros Hd Hh Hm Hl. unfold global_name.
  change ("prods_op_mogreps-g_" ++ d ++ "_" ++ hh ++ "_" ++ mm ++ "_" ++ lll ++ ".nc")
    with ("prods" ++ String "_" ("op" ++ String "_" ("mogreps-g" ++ String "_"
            (d ++ String "_" (hh ++ String "_" (mm ++ String "_" (lll ++ ".nc"))))))).
  rewrite !split_app by (assumption || reflexivity).
  rewrite split_no_sep; [reflexivity |].
  rewrite no_char_app, Hl. reflexivity.
Qed.

(** * The name of the matching global file *)

Lemma g_fname_of_info (d : string) (H M L : Z) :
  g_fname_of [PStr d; PInt H; PInt M; PInt L]
  = OK (global_name d (Py.format_0d 2 (H - 3)) (Py.format_0d 2 M)
                    (Py.format_0d 3 (L + 3))).
Proof. reflexivity. Qed.

(** The global name is a name [get_info] reads, and it reads the shifted
    fields in it. *)
Lemma get_info_global_name (d : string) (h m l : Z) :
  no_char "_" d = true ->
  get_info (global_name d (Py.format_0d 2 h) (Py.format_0d 2 m) (Py.format_0d 3 l))
  = OK [PStr d; PInt h; PInt m; PInt l].
Proof.
  intros Hd.
  rewrite (get_info_four _ ["prods"; "op"; "mogreps-g"] d (Py.format_0d 2 h)
             (Py.format_0d 2 m) (Py.format_0d 3 l ++ ".nc")).
  - rewrite !int_format_0d. cbn [bind].
    rewrite stem_ext by (now apply format_0d_no_char).
    rewrite int_format_0d. reflexivity.
  - apply split_global_name; try assumption; now apply format_0d_no_char.
Qed.

(** C2, amended: for a regional filename parsed to (date, H, M, L) the
    global filename is [prods_op_mogreps-g_<date>_<hh>_<mm>_<lll>.nc], where
    [hh], [mm] and [lll] are H-3, M and L+3 written in decimal and padded
    with zeros to 2, 2 and 3 characters at least, a minus sign counting in
    the width.  The fields have exactly 2, 2 and 3 digits when
    3 <= H <= 102, 0 <= M <= 99 and -3 <= L <= 996, and [get_info] reads the
    date, H-3, M and L+3 back from the computed name. *)
Theorem global_name_derivation (fname d : string) (H M L : Z) :
  get_info fname = OK [PStr d; PInt H; PInt M; PInt L] ->
  exists hh mm lll,
    hh = Py.format_0d 2 (H - 3) /\ mm = Py.format_0d 2 M /\
    lll = Py.format_0d 3 (L + 3) /\
    g_fname_of [PStr d; PInt H; PInt M; PInt L] = OK (global_name d hh mm lll) /\
    min_width 2 (H - 3) hh /\ min_width 2 M mm /\ min_width 3 (L + 3) lll /\
    (3 <= H <= 102 -> fixed_width 2 (H - 3) hh) /\
    (0 <= M <= 99 -> fixed_width 2 M mm) /\
    (-3 <= L <= 996 -> fixed_width 3 (L + 3) lll) /\
    get_info (global_name d hh mm lll)
    = OK [PStr d; PInt (H - 3); PInt M; PInt (L + 3)].
Proof.
  intros Hinfo.
  exists (Py.format_0d 2 (H - 3)), (Py.format_0d 2 M), (Py.format_0d 3 (L + 3)).
  repeat (split; [reflexivity |]).
  repeat (split; [apply format_0d_min_width |]).
  split; [intros; apply format_0d_fixed_2; lia |].
  split; [intros; apply format_0d_fixed_2; lia |].
  split; [intros; apply format_0d_fixed_3; lia |].
  apply get_info_global_name.
  destruct (get_info_shape _ _ Hinfo)
    as (pre & d' & a & b & c & h & m & l & Hs & _ & _ & _ & Heq).
  injection Heq as <-.
  pose proof (split_segments "_" fname) as Hall.
  rewrite Hs in Hall. apply Forall_app in Hall as [_ Hall].
  now inversion Hall.
Qed.

(** Regional run hour 6 and lead 3 give global run hour 3 and lead 6. *)
Lemma global_name_derivation_witness :
  get_info "prods_op_mogreps-uk_20160107_06_00_003.nc"
  = OK [PStr "20160107"; PInt 6; PInt 0; PInt 3] /\
  exists hh mm lll,
    hh = "03" /\ mm = "00" /\ lll = "006" /\
    g_fname_of [PStr "20160107"; PInt 6; PInt 0; PInt 3]
    = OK (global_name "20160107" hh mm lll) /\
    min_width 2 (6 - 3) hh /\ min_width 2 0 mm /\ min_width 3 (3 + 3) lll /\
    (3 <= 6 <= 102 -> fixed_width 2 (6 - 3) hh) /\
    (0 <= 0 <= 99 -> fixed_width 2 0 mm) /\
    (-3 <= 3 <= 996 -> fixed_width 3 (3 + 3) lll) /\
    get_info (global_name "20160107" hh mm lll)
    = OK [PStr "20160107"; PInt (6 - 3); PInt 0; PInt (3 + 3)].
Proof.
  split; [vm_compute; reflexivity |].
  exact (global_name_derivation "prods_op_mogreps-uk_20160107_06_00_003.nc"
           "20160107" 6 0 3 ltac:(vm_compute; reflexivity)).
Defined.

Example global_name_6_3 :
  (info <- get_info "prods_op_mogreps-uk_20160107_06_00_003.nc" ;; g_fname_of info)
  = OK "prods_op_mogreps-g_20160107_03_00_006.nc".
Proof. vm_compute. reflexivity. Qed.

(** C2 as worded fails for a regional run hour below 3: run hour 0 gives the
    hour field [-3], which is not a number of two digits. *)
Lemma global_name_hour_0 :
  get_info "prods_op_mogreps-uk_20160107_00_00_003.nc"
  = OK [PStr "20160107"; PInt 0; PInt 0; PInt 3] /\
  g_fname_of [PStr "20160107"; PInt 0; PInt 0; PInt 3]
  = OK "prods_op_mogreps-g_20160107_-3_00_006.nc" /\
  ~ fixed_width_global_name "prods_op_mogreps-uk_20160107_00_00_003.nc".
Proof.
  split; [vm_compute; reflexivity |].
  split; [vm_compute; reflexivity |].
  intros Hclaim.
  destruct (Hclaim "20160107" 0 0 3 ltac:(vm_compute; reflexivity))
    as (hh & mm & lll & Hg & (Hlen & Hdig & _) & _).
  destruct hh as [| c1 [| c2 [| c3 r]]]; try discriminate Hlen.
  rewrite g_fname_of_info in Hg. unfold global_name in Hg.
  vm_compute in Hg. inversion Hg; subst.
  vm_compute in Hdig. discriminate.
Qed.

(** * Ground level *)

Section GroundLevel.

Variable V : Type.
Variable ltb : V -> V -> bool.
Variable Data : Type.
Variable extract : Cube V Data -> string -> V -> result (option (Cube V Data)).

#[local] Open Scope list_scope.

(** ** [min] and [max] over values ordered by [ltb] *)

Section Order.

Hypothesis ltb_irrefl : forall x, ltb x x = false.
Hypothesis ltb_trans :
  forall x y z, ltb x y = true -> ltb y z = true -> ltb x z = true.
Hypothesis ltb_total : forall x y, ltb x y = true \/ x = y \/ ltb y x = true.

Lemma min_from_in (l : list V) (m : V) :
  min_from ltb m l = m \/ In (min_from ltb m l) l.
Proof.
  revert m. induction l as [| y l IH]; intros m; cbn [min_from]; [now left |].
  destruct (IH (if ltb y m then y else m)) as [Heq | Hin]; [| right; now right].
  rewrite Heq. destruct (ltb y m); [right; now left | now left].
Qed.

Lemma min_from_lower (l seen : list V) (m : V) :
  (forall x, In x seen -> ltb x m = false) ->
  forall x, In x seen \/ In x l -> ltb x (min_from ltb m l) = false.
Proof.
  revert seen m. induction l as [| y l IH]; intros seen m Hseen x Hx; cbn [min_from].
  - destruct Hx as [Hx | []]. now apply Hseen.
  - apply (IH (y :: seen)).
    + intros x' [<- | Hx'].
      * destruct (ltb y m) eqn:Hym; [apply ltb_irrefl | exact Hym].
      * destruct (ltb y m) eqn:Hym; [| now apply Hseen].
        destruct (ltb x' y) eqn:Hxy; [| reflexivity].
        rewrite <- (Hseen x' Hx'). symmetry. now apply (ltb_trans x' y m).
    + destruct Hx as [Hx | [<- | Hx]]; [left; now right | left; now left | now right].
Qed.

Lemma max_from_in (l : list V) (m : V) :
  max_from ltb m l = m \/ In (max_from ltb m l) l.
Proof.
  revert m. induction l as [| y l IH]; intros m; cbn [max_from]; [now left |].
  destruct (IH (if ltb m y then y else m)) as [Heq | Hin]; [| right; now right].
  rewrite Heq. destruct (ltb m y); [right; now left | now left].
Qed.

Lemma max_from_upper (l seen : list V) (m : V) :
  (forall x, In x seen -> ltb m x = false) ->
  forall x, In x seen \/ In x l -> ltb (max_from ltb m l) x = false.
Proof.
  revert seen m. induction l as [| y l IH]; intros seen m Hseen x Hx; cbn [max_from].
  - destruct Hx as [Hx | []]. now apply Hseen.
  - apply (IH (y :: seen)).
    + intros x' [<- | Hx'].
      * destruct (ltb m y) eqn:Hmy; [apply ltb_irrefl | exact Hmy].
      * destruct (ltb m y) eqn:Hmy; [| now apply Hseen].
        destruct (ltb y x') eqn:Hyx; [| reflexivity].
        rewrite <- (Hseen x' Hx'). symmetry. now apply (ltb_trans m y x').
    + destruct Hx as [Hx | [<- | Hx]]; [left; now right | left; now left | now right].
Qed.

Lemma py_min_spec (l : list V) :
  l <> [] -> exists v, py_min ltb l = OK v /\ is_min ltb v l.
Proof.
  destruct l as [| x t]; [congruence | intros _].
  exists (min_from ltb x t). split; [reflexivity |]. split.
  - destruct (min_from_in t x) as [-> | Hin]; [now left | now right].
  - intros y Hy. apply (min_from_lower t [x] x).
    + intros x' [<- | []]. apply ltb_irrefl.
    + destruct Hy as [<- | Hy]; [left; now left | now right].
Qed.

Lemma py_max_spec (l : list V) :
  l <> [] -> exists v, py_max ltb l = OK v /\ is_max ltb v l.
Proof.
  destruct l as [| x t]; [congruence | intros _].
  exists (max_from ltb x t). split; [reflexivity |]. split.
  - destruct (max_from_in t x) as [-> | Hin]; [now left | now right].
  - intros y Hy. apply (max_from_upper t [x] x).
    + intros x' [<- | []]. apply ltb_irrefl.
    + destruct Hy as [<- | Hy]; [left; now left | now right].
Qed.

(** In a total order the item that nothing is below is the least one. *)
Lemma py_min_least (l : list V) :
  l <> [] -> exists v, py_min ltb l = OK v /\ is_least ltb v l.
Proof.
  intros Hne. destruct (py_min_spec l Hne) as (v & Hv & Hin & Hlow).
  exists v. split; [exact Hv |]. split; [exact Hin |].
  intros x Hx. destruct (ltb_total x v) as [Hlt | [-> | Hgt]]; auto.
  rewrite (Hlow x Hx) in Hlt. discriminate.
Qed.

Lemma py_max_greatest (l : list V) :
  l <> [] -> exists v, py_max ltb l = OK v /\ is_greatest ltb v l.
Proof.
  intros Hne. destruct (py_max_spec l Hne) as (v & Hv & Hin & Hup).
  exists v. split; [exact Hv |]. split; [exact Hin |].
  intros x Hx. destruct (ltb_total x v) as [Hlt | [-> | Hgt]]; auto.
  rewrite (Hup x Hx) in Hgt. discriminate.
Qed.

(** ** Looking coordinates up *)

Lemma until_newline_id (s : string) : single_line s = true -> until_newline s = s.
Proof.
  induction s as [| c r IH]; cbn; [reflexivity |].
  intros [Hc Hr]%andb_prop. apply negb_true_iff in Hc.
  rewrite Hc. f_equal. exact (IH Hr).
Qed.

Lemma re_match_named (p : string) (d : Coord V) :
  single_line (coord_name d) = true ->
  re_match p (coord_name d) = if named_like p d then Some (coord_name d) else None.
Proof.
  intros Hd. unfold re_match, named_like.
  now rewrite (until_newline_id _ Hd).
Qed.

Lemma is_match_named (p : string) (d : Coord V) :
  is_match (re_match p (coord_name d)) = named_like p d.
Proof. unfold re_match, named_like. now destruct (String.prefix p (coord_name d)). Qed.

Lemma any_match_named (p : string) (c : Cube V Data) :
  any_match p c = existsb (named_like p) (cube_coords c).
Proof.
  unfold any_match. induction (cube_coords c) as [| d t IH]; cbn; [reflexivity |].
  now rewrite is_match_named, IH.
Qed.

Lemma filter_name_absent (ds : list (Coord V)) (n : string) :
  ~ In n (map coord_name ds) ->
  filter (fun d => String.eqb (coord_name d) n) ds = [].
Proof.
  induction ds as [| a t IH]; cbn; [reflexivity |].
  intros Hn. destruct (String.eqb_spec (coord_name a) n) as [He | _].
  - exfalso. apply Hn. now left.
  - apply IH. intros Hin. apply Hn. now right.
Qed.

Lemma filter_name_unique (ds : list (Coord V)) (d : Coord V) :
  NoDup (map coord_name ds) -> In d ds ->
  filter (fun d' => String.eqb (coord_name d') (coord_name d)) ds = [d].
Proof.
  induction ds as [| a t IH]; cbn; [intros _ [] |].
  intros Hnd Hin. inversion Hnd as [| ? ? Ha Ht]; subst.
  destruct Hin as [-> | Hin].
  - rewrite String.eqb_refl. f_equal. now apply filter_name_absent.
  - destruct (String.eqb_spec (coord_name a) (coord_name d)) as [He | _].
    + exfalso. apply Ha. rewrite He. now apply in_map.
    + now apply IH.
Qed.

Lemma cube_coord_once (c : Cube V Data) (n : string) :
  borne_once c n -> exists d, cube_coord c n = OK d.
Proof.
  unfold borne_once, cube_coord.
  destruct (filter (fun d => String.eqb (coord_name d) n) (cube_coords c))
    as [| x [| y r]]; cbn [length]; intros Hlen; try discriminate.
  eauto.
Qed.

(** A coordinate found under the name of a coordinate of the cube is that
    coordinate. *)
Lemma cube_coord_self (c : Cube V Data) (d d' : Coord V) :
  In d (cube_coords c) -> cube_coord c (coord_name d) = OK d' -> d' = d.
Proof.
  intros Hin. unfold cube_coord.
  assert (In d (filter (fun d0 => String.eqb (coord_name d0) (coord_name d))
                       (cube_coords c))) as Hf
    by (apply filter_In; split; [exact Hin | apply String.eqb_refl]).
  destruct (filter (fun d0 => String.eqb (coord_name d0) (coord_name d))
                   (cube_coords c)) as [| x [| y r]]; try discriminate.
  intros [= <-]. destruct Hf as [-> | []]. reflexivity.
Qed.

(** ** The loop over the coordinates *)

Lemma scan_coords_app (p : string) (c : Cube V Data) (l1 l2 : list (Coord V))
    (cur : option (string * Coord V)) :
  scan_coords p c (l1 ++ l2) cur
  = (cur' <- scan_coords p c l1 cur ;; scan_coords p c l2 cur').
Proof.
  revert cur. induction l1 as [| d t IH]; intros cur; cbn [scan_coords Datatypes.app bind];
    [reflexivity |].
  destruct (re_match p (coord_name d)) as [name |]; [| apply IH].
  destruct (cube_coord c name) as [vc | e]; cbn [bind]; [apply IH | reflexivity].
Qed.

Lemma scan_coords_none (p : string) (c : Cube V Data) (ds : list (Coord V))
    (cur : option (string * Coord V)) :
  forallb (fun d => negb (named_like p d)) ds = true ->
  scan_coords p c ds cur = OK cur.
Proof.
  induction ds as [| d t IH]; cbn [scan_coords forallb]; [reflexivity |].
  intros [Hd Ht]%andb_prop. apply negb_true_iff in Hd.
  pose proof (is_match_named p d) as Hm. rewrite Hd in Hm.
  destruct (re_match p (coord_name d)); [discriminate | now apply IH].
Qed.

Lemma scan_coords_succeed (p : string) (c : Cube V Data) (ds : list (Coord V))
    (cur : option (string * Coord V)) :
  lookups_succeed p c -> incl ds (cube_coords c) ->
  exists cur', scan_coords p c ds cur = OK cur'.
Proof.
  intros Hlook. revert cur.
  induction ds as [| d t IH]; intros cur Hincl; cbn [scan_coords]; [eauto |].
  assert (In d (cube_coords c)) as Hd by (apply Hincl; now left).
  assert (incl t (cube_coords c)) as Ht by (intros x Hx; apply Hincl; now right).
  unfold re_match. destruct (String.prefix p (coord_name d)) eqn:Hp; [| now apply IH].
  destruct (cube_coord_once c _ (Hlook d Hd Hp)) as [vc ->].
  cbn [bind]. now apply IH.
Qed.

Lemma scan_coords_selects (p : string) (c : Cube V Data) (d : Coord V)
    (cur : option (string * Coord V)) :
  lookups_succeed p c -> last_named_like p (cube_coords c) d ->
  single_line (coord_name d) = true ->
  scan_coords p c (cube_coords c) cur = OK (Some (coord_name d, d)).
Proof.
  intros Hlook (l1 & l2 & Hds & Hd & Hl2) Hline.
  assert (In d (cube_coords c)) as Hin
    by (rewrite Hds; apply in_or_app; right; now left).
  assert (incl l1 (cube_coords c)) as Hl1
    by (intros x Hx; rewrite Hds; apply in_or_app; now left).
  destruct (cube_coord_once c _ (Hlook d Hin Hd)) as [vc Hvc].
  rewrite (until_newline_id _ Hline) in Hvc.
  pose proof (cube_coord_self c d vc Hin Hvc) as ->.
  rewrite Hds, scan_coords_app.
  destruct (scan_coords_succeed p c l1 cur Hlook Hl1) as [cur' ->].
  cbn [bind scan_coords].
  rewrite (re_match_named p d Hline), Hd, Hvc. cbn [bind].
  now apply scan_coords_none.
Qed.

Lemma existsb_false_forallb {A : Type} (f : A -> bool) (l : list A) :
  existsb f l = false -> forallb (fun x => negb (f x)) l = true.
Proof.
  induction l as [| a t IH]; cbn; [reflexivity |].
  intros [Ha Ht]%orb_false_elim. now rewrite Ha, IH.
Qed.

(** A list with an element named like [p] has a last one. *)
Lemma last_named_like_exists (p : string) (ds : list (Coord V)) :
  existsb (named_like p) ds = true -> exists d, last_named_like p ds d.
Proof.
  induction ds as [| a t IH]; cbn; [discriminate |].
  destruct (existsb (named_like p) t) eqn:Ht.
  - intros _. destruct (IH eq_refl) as (d & l1 & l2 & -> & Hd & Hl2).
    exists d, (a :: l1), l2. auto.
  - rewrite orb_false_r. intros Ha.
    exists a, [], t. repeat split; auto. now apply existsb_false_forallb.
Qed.

Lemma last_named_like_in (p : string) (ds : list (Coord V)) (d : Coord V) :
  last_named_like p ds d -> In d ds /\ named_like p d = true.
Proof.
  intros (l1 & l2 & -> & Hd & _). split; [| exact Hd].
  apply in_or_app. right. now left.
Qed.

Lemma named_like_any (p : string) (c : Cube V Data) (d : Coord V) :
  In d (cube_coords c) -> named_like p d = true -> any_match p c = true.
Proof.
  intros Hin Hd. rewrite any_match_named. apply existsb_exists. eauto.
Qed.

(** ** The three branches of [get_ground_level] *)

Lemma no_height_match (c : Cube V Data) :
  (forall d, In d (cube_coords c) -> named_like "height" d = false) ->
  any_match "height" c = false.
Proof.
  intros Hno. rewrite any_match_named. apply not_true_is_false.
  intros (x & Hx & Hnx)%existsb_exists. rewrite (Hno x Hx) in Hnx. discriminate.
Qed.

Lemma ground_level_selects_height (c : Cube V Data) (d : Coord V) :
  lookups_succeed "height" c -> last_named_like "height" (cube_coords c) d ->
  single_line (coord_name d) = true -> coord_points d <> [] ->
  exists v, is_least ltb v (coord_points d) /\
    get_ground_level ltb extract (Some c)
    = (g <- extract c (coord_name d) v ;; OK (g, Some (coord_name d))).
Proof.
  intros Hlook Hlast Hline Hpts.
  destruct (last_named_like_in _ _ _ Hlast) as [Hin Hd].
  destruct (py_min_least _ Hpts) as (v & Hv & Hleast).
  exists v. split; [exact Hleast |].
  unfold get_ground_level. cbn [attr bind].
  rewrite (named_like_any _ _ _ Hin Hd).
  rewrite (scan_coords_selects _ _ _ None Hlook Hlast Hline). cbn [bind bound].
  rewrite Hv. reflexivity.
Qed.

Lemma ground_level_selects_pressure (c : Cube V Data) (d : Coord V) :
  (forall d', In d' (cube_coords c) -> named_like "height" d' = false) ->
  lookups_succeed "pressure" c -> last_named_like "pressure" (cube_coords c) d ->
  single_line (coord_name d) = true -> coord_points d <> [] ->
  exists v, is_greatest ltb v (coord_points d) /\
    get_ground_level ltb extract (Some c)
    = (g <- extract c (coord_name d) v ;; OK (g, Some (coord_name d))).
Proof.
  intros Hno Hlook Hlast Hline Hpts.
  destruct (last_named_like_in _ _ _ Hlast) as [Hin Hd].
  destruct (py_max_greatest _ Hpts) as (v & Hv & Hgreatest).
  exists v. split; [exact Hgreatest |].
  unfold get_ground_level. cbn [attr bind].
  rewrite (no_height_match c Hno), (named_like_any _ _ _ Hin Hd).
  rewrite (scan_coords_selects _ _ _ None Hlook Hlast Hline). cbn [bind bound].
  rewrite Hv. reflexivity.
Qed.

(** C6, amended: when some coordinate has a name that starts with "height",
    when every such name, as the pattern returns it, is borne by exactly one
    coordinate, and when the last such coordinate has a name of one line
    and a point at least, the result is the extraction of the cube at the
    least value of that coordinate, with its name.  Nothing is asked of the
    other coordinates, the pressure coordinates among them: the height rule
    comes first.  Values are totally ordered by [ltb]. *)
Theorem ground_level_height (c : Cube V Data) :
  (exists d, In d (cube_coords c) /\ named_like "height" d = true) ->
  lookups_succeed "height" c ->
  (forall d, last_named_like "height" (cube_coords c) d ->
     single_line (coord_name d) = true /\ coord_points d <> []) ->
  exists d v,
    In d (cube_coords c) /\ named_like "height" d = true /\
    is_least ltb v (coord_points d) /\
    get_ground_level ltb extract (Some c)
    = (g <- extract c (coord_name d) v ;; OK (g, Some (coord_name d))).
Proof.
  intros (d0 & Hin0 & Hd0) Hlook Hsel.
  destruct (last_named_like_exists "height" (cube_coords c)) as [d Hlast].
  { apply existsb_exists. eauto. }
  destruct (Hsel d Hlast) as [Hline Hpts].
  destruct (ground_level_selects_height c d Hlook Hlast Hline Hpts)
    as (v & Hleast & Hres).
  destruct (last_named_like_in _ _ _ Hlast) as [Hin Hd].
  exists d, v. auto.
Qed.

(** C7, amended: with no coordinate named like "height" and some coordinate
    named like "pressure", when every such name, as the pattern returns it,
    is borne by exactly one coordinate, and when the last such coordinate
    has a name of one line and a point at least, the result is the
    extraction of the cube at the greatest value of that coordinate, with
    its name.  Values are totally ordered by [ltb]. *)
Theorem ground_level_pressure (c : Cube V Data) :
  (forall d, In d (cube_coords c) -> named_like "height" d = false) ->
  (exists d, In d (cube_coords c) /\ named_like "pressure" d = true) ->
  lookups_succeed "pressure" c ->
  (forall d, last_named_like "pressure" (cube_coords c) d ->
     single_line (coord_name d) = true /\ coord_points d <> []) ->
  exists d v,
    In d (cube_coords c) /\ named_like "pressure" d = true /\
    is_greatest ltb v (coord_points d) /\
    get_ground_level ltb extract (Some c)
    = (g <- extract c (coord_name d) v ;; OK (g, Some (coord_name d))).
Proof.
  intros Hno (d0 & Hin0 & Hd0) Hlook Hsel.
  destruct (last_named_like_exists "pressure" (cube_coords c)) as [d Hlast].
  { apply existsb_exists. eauto. }
  destruct (Hsel d Hlast) as [Hline Hpts].
  destruct (ground_level_selects_pressure c d Hno Hlook Hlast Hline Hpts)
    as (v & Hgreatest & Hres).
  destruct (last_named_like_in _ _ _ Hlast) as [Hin Hd].
  exists d, v. auto.
Qed.

(** C8, amended: when several coordinates are named like the selected
    prefix ("height", or "pressure" when no coordinate is named like
    "height"), when every such name, as the pattern returns it, is borne by
    exactly one coordinate, and when the last of them in the order of
    [cube.coords()] has a name of one line and a point at least, that last
    coordinate gives the level and the returned name. *)
Theorem ground_level_last_match (c : Cube V Data) (d : Coord V) :
  single_line (coord_name d) = true -> coord_points d <> [] ->
  (several_named_like "height" (cube_coords c) ->
   lookups_succeed "height" c ->
   last_named_like "height" (cube_coords c) d ->
   exists v, is_least ltb v (coord_points d) /\
     get_ground_level ltb extract (Some c)
     = (g <- extract c (coord_name d) v ;; OK (g, Some (coord_name d)))) /\
  ((forall d', In d' (cube_coords c) -> named_like "height" d' = false) ->
   several_named_like "pressure" (cube_coords c) ->
   lookups_succeed "pressure" c ->
   last_named_like "pressure" (cube_coords c) d ->
   exists v, is_greatest ltb v (coord_points d) /\
     get_ground_level ltb extract (Some c)
     = (g <- extract c (coord_name d) v ;; OK (g, Some (coord_name d)))).
Proof.
  intros Hline Hpts. split.
  - intros _ Hlook Hlast. now apply ground_level_selects_height.
  - intros Hno _ Hlook Hlast. now apply ground_level_selects_pressure.
Qed.

End Order.

(** C9: a cube with no coordinate named like "height" or "pressure" is
    returned as it is, with no coordinate name. *)
Theorem ground_level_identity (c : Cube V Data) :
  (forall d, In d (cube_coords c) ->
     named_like "height" d = false /\ named_like "pressure" d = false) ->
  get_ground_level ltb extract (Some c) = OK (Some c, None).
Proof.
  intros Hno. unfold get_ground_level. cbn [attr bind].
  assert (forall p, (forall d, In d (cube_coords c) -> named_like p d = false) ->
                    any_match p c = false) as Hany.
  { intros p Hp. rewrite any_match_named. apply not_true_is_false.
    intros (x & Hx & Hnx)%existsb_exists. rewrite (Hp x Hx) in Hnx. discriminate. }
  rewrite (Hany "height") by (intros d Hd; apply (Hno d Hd)).
  rewrite (Hany "pressure") by (intros d Hd; apply (Hno d Hd)).
  reflexivity.
Qed.

(** What is handed to [get_ground_level] when a time extraction found
    nothing is [None], which has no coordinates. *)
Lemma ground_level_of_none :
  get_ground_level ltb extract None = Raise AttributeError.
Proof. reflexivity. Qed.

End GroundLevel.

(** ** The rules on the sample cubes *)

Lemma Zltb_irrefl (x : Z) : (x <? x) = false.
Proof. apply Z.ltb_irrefl. Qed.

Lemma Zltb_trans (x y z : Z) : (x <? y) = true -> (y <? z) = true -> (x <? z) = true.
Proof. rewrite !Z.ltb_lt. lia. Qed.

Lemma Zltb_total (x y : Z) : (x <? y) = true \/ x = y \/ (y <? x) = true.
Proof. rewrite !Z.ltb_lt. lia. Qed.

Ltac distinct_names :=
  repeat (constructor; [cbn; intuition discriminate |]); constructor.

(** A list has one last coordinate named like [p] at most. *)
Lemma last_named_like_unique {V : Type} (p : string) (ds : list (Coord V))
    (d d' : Coord V) :
  last_named_like p ds d -> last_named_like p ds d' -> d = d'.
Proof.
  intros (l1 & l2 & -> & Hd & Hl2) (l1' & l2' & Heq & Hd' & Hl2').
  assert (forall (l : list (Coord V)) x,
            forallb (fun y => negb (named_like p y)) l = true ->
            In x l -> named_like p x = true -> False) as Hnone.
  { intros l x Hl Hx Hn. rewrite forallb_forall in Hl.
    specialize (Hl x Hx). rewrite Hn in Hl. discriminate. }
  revert l1' Heq. induction l1 as [| a t IH]; intros [| a' t'] Heq; cbn in Heq.
  - now injection Heq.
  - injection Heq as -> ->. exfalso.
    apply (Hnone _ d' Hl2); [apply in_or_app; right; now left | exact Hd'].
  - injection Heq as <- <-. exfalso.
    apply (Hnone _ d Hl2'); [apply in_or_app; right; now left | exact Hd].
  - injection Heq as _ Heq. now apply (IH t').
Qed.

Ltac each_coord Hd Hn :=
  cbn in Hd;
  repeat (destruct Hd as [<- | Hd];
          [first [discriminate Hn | vm_compute; reflexivity] |]);
  destruct Hd.

Lemma lookups_tall : lookups_succeed "height" Sample.tall.
Proof. intros d Hd Hn. each_coord Hd Hn. Qed.

Lemma lookups_deep : lookups_succeed "pressure" Sample.deep.
Proof. intros d Hd Hn. each_coord Hd Hn. Qed.

Lemma last_tall :
  last_named_like "height" (cube_coords Sample.tall)
    (mkCoord "height_above_ground" [40; 2; 8]).
Proof.
  exists [mkCoord "time" [3]; mkCoord "height" [10; 5; 20];
          mkCoord "pressure" [850; 1000; 500]], [].
  repeat split; reflexivity.
Qed.

Lemma last_deep :
  last_named_like "pressure" (cube_coords Sample.deep)
    (mkCoord "pressure_at_sea_level" [990; 1013; 1002]).
Proof.
  exists [mkCoord "pressure" [850; 1000; 500]; mkCoord "time" [3]], [].
  repeat split; reflexivity.
Qed.

(** A cube with two height coordinates and a pressure coordinate: height is
    used. *)
Lemma ground_level_height_witness :
  exists d v,
    In d (cube_coords Sample.tall) /\ named_like "height" d = true /\
    is_least Z.ltb v (coord_points d) /\
    get_ground_level Z.ltb Sample.extract (Some Sample.tall)
    = (g <- Sample.extract Sample.tall (coord_name d) v ;; OK (g, Some (coord_name d))).
Proof.
  apply (ground_level_height Z Z.ltb (option string) Sample.extract
           Zltb_irrefl Zltb_trans Zltb_total Sample.tall).
  - exists (mkCoord "height" [10; 5; 20]). split; [cbn; auto | reflexivity].
  - exact lookups_tall.
  - intros d Hd. rewrite (last_named_like_unique _ _ _ _ Hd last_tall).
    split; [reflexivity | discriminate].
Defined.

Lemma ground_level_pressure_witness :
  exists d v,
    In d (cube_coords Sample.deep) /\ named_like "pressure" d = true /\
    is_greatest Z.ltb v (coord_points d) /\
    get_ground_level Z.ltb Sample.extract (Some Sample.deep)
    = (g <- Sample.extract Sample.deep (coord_name d) v ;; OK (g, Some (coord_name d))).
Proof.
  apply (ground_level_pressure Z Z.ltb (option string) Sample.extract
           Zltb_irrefl Zltb_trans Zltb_total Sample.deep).
  - intros d Hd. cbn in Hd. intuition (subst; reflexivity).
  - exists (mkCoord "pressure" [850; 1000; 500]). split; [cbn; auto | reflexivity].
  - exact lookups_deep.
  - intros d Hd. rewrite (last_named_like_unique _ _ _ _ Hd last_deep).
    split; [reflexivity | discriminate].
Defined.

Example ground_level_tall :
  get_ground_level Z.ltb Sample.extract (Some Sample.tall)
  = OK (Some (mkCube "air_temperature"
                [mkCoord "time" [3]; mkCoord "height" [10; 5; 20];
                 mkCoord "pressure" [850; 1000; 500];
                 mkCoord "height_above_ground" [2]]
                (Some "GeogCS")),
        Some "height_above_ground").
Proof. vm_compute. reflexivity. Qed.

Example ground_level_deep :
  get_ground_level Z.ltb Sample.extract (Some Sample.deep)
  = OK (Some (mkCube "air_temperature"
                [mkCoord "pressure" [850; 1000; 500]; mkCoord "time" [3];
                 mkCoord "pressure_at_sea_level" [1013]]
                (Some "GeogCS")),
        Some "pressure_at_sea_level").
Proof. vm_compute. reflexivity. Qed.

(** Two height coordinates, then two pressure coordinates: the later one
    is used. *)
Lemma ground_level_last_match_witness :
  (exists v, is_least Z.ltb v [40; 2; 8] /\
     get_ground_level Z.ltb Sample.extract (Some Sample.tall)
     = (g <- Sample.extract Sample.tall "height_above_ground" v ;;
        OK (g, Some "height_above_ground"))) /\
  (exists v, is_greatest Z.ltb v [990; 1013; 1002] /\
     get_ground_level Z.ltb Sample.extract (Some Sample.deep)
     = (g <- Sample.extract Sample.deep "pressure_at_sea_level" v ;;
        OK (g, Some "pressure_at_sea_level"))).
Proof.
  split.
  - apply (proj1 (ground_level_last_match Z Z.ltb (option string) Sample.extract
                    Zltb_irrefl Zltb_trans Zltb_total Sample.tall
                    (mkCoord "height_above_ground" [40; 2; 8])
                    eq_refl ltac:(discriminate))).
    + unfold several_named_like. cbn. lia.
    + exact lookups_tall.
    + exact last_tall.
  - apply (proj2 (ground_level_last_match Z Z.ltb (option string) Sample.extract
                    Zltb_irrefl Zltb_trans Zltb_total Sample.deep
                    (mkCoord "pressure_at_sea_level" [990; 1013; 1002])
                    eq_refl ltac:(discriminate))).
    + intros d Hd. cbn in Hd. intuition (subst; reflexivity).
    + unfold several_named_like. cbn. lia.
    + exact lookups_deep.
    + exact last_deep.
Defined.

(** C6 as worded fails on a cube whose height coordinate has no point
    ([min] raises [ValueError]) and on a cube where two coordinates share
    the name "height" ([cube.coord] raises [CoordinateNotFoundError]): a
    coordinate named like "height" is there, and nothing is returned,
    whatever [extract] does. *)
Lemma height_rule_raises :
  (exists d, In d (cube_coords Odd.hollow) /\ named_like "height" d = true) /\
  (forall extract,
     get_ground_level Z.ltb extract (Some Odd.hollow) = Raise ValueError) /\
  (exists d, In d (cube_coords Odd.twice) /\ named_like "height" d = true) /\
  (forall extract,
     get_ground_level Z.ltb extract (Some Odd.twice) = Raise CoordinateNotFoundError).
Proof.
  split; [exists (mkCoord "height" []); split; [cbn; auto | reflexivity] |].
  split; [intros extract; reflexivity |].
  split; [exists (mkCoord "height" [10; 5]); split; [cbn; auto | reflexivity] |].
  intros extract. reflexivity.
Qed.

(** C7 as worded fails on a cube without height coordinate whose pressure
    coordinate has no point, and on one where two coordinates share the name
    "pressure". *)
Lemma pressure_rule_raises :
  forallb (fun d => negb (named_like "height" d)) (cube_coords Odd.vacuum) = true /\
  (exists d, In d (cube_coords Odd.vacuum) /\ named_like "pressure" d = true) /\
  (forall extract,
     get_ground_level Z.ltb extract (Some Odd.vacuum) = Raise ValueError) /\
  forallb (fun d => negb (named_like "height" d)) (cube_coords Odd.isobars) = true /\
  (exists d, In d (cube_coords Odd.isobars) /\ named_like "pressure" d = true) /\
  (forall extract,
     get_ground_level Z.ltb extract (Some Odd.isobars) = Raise CoordinateNotFoundError).
Proof.
  split; [reflexivity |].
  split; [exists (mkCoord "pressure" []); split; [cbn; auto | reflexivity] |].
  split; [intros extract; reflexivity |].
  split; [reflexivity |].
  split; [exists (mkCoord "pressure" [500]); split; [cbn; auto | reflexivity] |].
  intros extract. reflexivity.
Qed.

(** C8 as worded fails on a cube with three coordinates named like "height"
    of which two share their name: the lookup of the shared name raises
    before the last match is reached.  It fails as well when the last of
    two height coordinates has no point. *)
Lemma last_match_rule_raises :
  several_named_like "height" (cube_coords Odd.twice) /\
  last_named_like "height" (cube_coords Odd.twice)
    (mkCoord "height_above_ground" [40; 2]) /\
  (forall extract,
     get_ground_level Z.ltb extract (Some Odd.twice) = Raise CoordinateNotFoundError) /\
  several_named_like "height" (cube_coords Odd.topless) /\
  last_named_like "height" (cube_coords Odd.topless)
    (mkCoord "height_above_ground" []) /\
  (forall extract,
     get_ground_level Z.ltb extract (Some Odd.topless) = Raise ValueError).
Proof.
  split; [unfold several_named_like; cbn; lia |].
  split.
  { exists [mkCoord "height" [10; 5]; mkCoord "time" [3]; mkCoord "height" [1; 2]], [].
    repeat split; reflexivity. }
  split; [intros extract; reflexivity |].
  split; [unfold several_named_like; cbn; lia |].
  split.
  { exists [mkCoord "height" [10; 5]; mkCoord "time" [3]], [].
    repeat split; reflexivity. }
  intros extract. reflexivity.
Qed.

Lemma ground_level_identity_witness :
  get_ground_level Z.ltb Sample.extract (Some Sample.flat) = OK (Some Sample.flat, None).
Proof.
  apply (ground_level_identity Z Z.ltb (option string) Sample.extract Sample.flat).
  intros d Hd. cbn in Hd. intuition (subst; reflexivity).
Defined.

(** * Pairing regional and global files *)

Lemma combine_fst_snd {A B : Type} (l : list (A * B)) :
  combine (map fst l) (map snd l) = l.
Proof.
  induction l as [| [a b] t IH]; cbn; [reflexivity | now rewrite IH].
Qed.

Section Pairing.

Variable V : Type.
Variable ltb : V -> V -> bool.
Variable Data : Type.
Variable extract : Cube V Data -> string -> V -> result (option (Cube V Data)).
Variable iris_load : string -> result (list (Cube V Data)).
Variable unrotate : option (Cube V Data) -> option (Cube V Data) -> result (Cube V Data).
Variable get_uk_from_global : option (Cube V Data) -> Cube V Data -> result (Cube V Data).
Variable param : string.
Variable g_files : list string.
Variable uk_path g_path : string.

#[local] Open Scope list_scope.

#[local] Abbreviation aligned_pair' :=
  (aligned_pair ltb extract iris_load unrotate get_uk_from_global param uk_path g_path).
#[local] Abbreviation loop_body' :=
  (loop_body ltb extract iris_load unrotate get_uk_from_global param g_files
     uk_path g_path).
#[local] Abbreviation run' :=
  (run ltb extract iris_load unrotate get_uk_from_global param g_files uk_path g_path).
#[local] Abbreviation get_uk_global_pairs' :=
  (get_uk_global_pairs ltb extract iris_load unrotate get_uk_from_global param
     g_files uk_path g_path).
#[local] Abbreviation kept_pair' :=
  (kept_pair V ltb Data extract iris_load unrotate get_uk_from_global param g_files
     uk_path g_path).
#[local] Abbreviation kept' :=
  (kept V ltb Data extract iris_load unrotate get_uk_from_global param g_files
     uk_path g_path).

(** A regional file whose global file is not listed leaves the two lists as
    they are. *)
Lemma loop_body_unlisted (st : pairs V Data) (fname : string) (info : list pyval)
    (g_fname : string) :
  get_info fname = OK info -> g_fname_of info = OK g_fname ->
  Py.contains g_files g_fname = false ->
  loop_body' st fname = OK st /\ kept_pair' fname = None.
Proof.
  intros Hi Hg Hc. unfold loop_body, kept_pair.
  rewrite Hi. cbn [bind]. rewrite Hg. cbn [bind]. rewrite Hc. auto.
Qed.

(** One turn of the loop appends the entry of its file, if it has one, to
    both lists. *)
Lemma loop_body_kept (st st' : pairs V Data) (fname : string) :
  loop_body' st fname = OK st' ->
  st' = (fst st ++ map fst (entry (kept_pair' fname)),
         snd st ++ map snd (entry (kept_pair' fname))).
Proof.
  unfold loop_body, kept_pair. destruct st as [uks gs]. cbn [fst snd].
  destruct (get_info fname) as [info | e]; cbn [bind]; [| discriminate].
  destruct (g_fname_of info) as [g_fname | e]; cbn [bind]; [| discriminate].
  destruct (Py.contains g_files g_fname).
  - destruct (aligned_pair' fname g_fname) as [[u g] | e].
    + intros [= <-]. reflexivity.
    + destruct (handled e); [| discriminate].
      intros [= <-]. cbn. now rewrite !app_nil_r.
  - intros [= <-]. cbn. now rewrite !app_nil_r.
Qed.

Lemma run_kept (uk_files : list string) (st st' : pairs V Data) :
  run' st uk_files = OK st' ->
  st' = (fst st ++ map fst (kept' uk_files), snd st ++ map snd (kept' uk_files)).
Proof.
  revert st. induction uk_files as [| fname rest IH]; intros st; cbn [run].
  - intros [= <-]. destruct st. cbn. now rewrite !app_nil_r.
  - destruct (loop_body' st fname) as [st1 |] eqn:Hstep; cbn [bind]; [| discriminate].
    intros Hrun. rewrite (IH _ Hrun), (loop_body_kept _ _ _ Hstep). cbn [fst snd].
    unfold kept. cbn [flat_map].
    now rewrite !map_app, !app_assoc.
Qed.

(** Files that parse and have no listed global file make the loop return. *)
Lemma run_unlisted (uk_files : list string) (st : pairs V Data) :
  (forall fname, In fname uk_files ->
     exists info g_fname, get_info fname = OK info /\ g_fname_of info = OK g_fname /\
                          Py.contains g_files g_fname = false) ->
  run' st uk_files = OK st.
Proof.
  induction uk_files as [| fname rest IH]; intros Hall; cbn [run]; [reflexivity |].
  destruct (Hall fname (or_introl eq_refl)) as (info & g & Hi & Hg & Hc).
  rewrite (proj1 (loop_body_unlisted st _ _ _ Hi Hg Hc)). cbn [bind].
  apply IH. intros f Hf. apply Hall. now right.
Qed.

(** C3: a regional file whose computed global name is not among the global
    file names gets no entry in the output and raises nothing; the lists
    returned are the entries of the regional files in the order of the
    input. *)
Theorem unlisted_skipped_order_kept (uk_files : list string) :
  (forall st fname info g_fname,
     get_info fname = OK info -> g_fname_of info = OK g_fname ->
     Py.contains g_files g_fname = false ->
     loop_body' st fname = OK st /\ kept_pair' fname = None) /\
  ((forall fname, In fname uk_files ->
      exists info g_fname, get_info fname = OK info /\ g_fname_of info = OK g_fname /\
                           Py.contains g_files g_fname = false) ->
   get_uk_global_pairs' uk_files = OK ([], [])) /\
  (forall uks gs,
     get_uk_global_pairs' uk_files = OK (uks, gs) ->
     uks = map fst (kept' uk_files) /\ gs = map snd (kept' uk_files)).
Proof.
  split; [intros; now apply (loop_body_unlisted st fname info g_fname) |].
  split; [intros Hall; now apply run_unlisted |].
  intros uks gs Hrun. apply run_kept in Hrun. cbn in Hrun.
  now injection Hrun as -> ->.
Qed.

(** C10: the two lists returned have the same length, and the cubes at the
    same position are the two cubes of one regional file; a turn of the loop
    appends to both lists or to none. *)
Theorem pairs_zip (uk_files : list string) :
  (forall uks gs,
     get_uk_global_pairs' uk_files = OK (uks, gs) ->
     length uks = length gs /\ combine uks gs = kept' uk_files) /\
  (forall st fname st',
     loop_body' st fname = OK st' ->
     st' = st \/ exists u g, st' = (fst st ++ [u], snd st ++ [g])).
Proof.
  split.
  - intros uks gs Hrun. apply run_kept in Hrun. cbn in Hrun.
    injection Hrun as -> ->. split.
    + now rewrite !length_map.
    + apply combine_fst_snd.
  - intros st fname st' Hstep. rewrite (loop_body_kept _ _ _ Hstep).
    destruct (kept_pair' fname) as [[u g] |]; cbn.
    + right. eauto.
    + left. destruct st. cbn. now rewrite !app_nil_r.
Qed.

(** C1, amended: when the global file of a regional file is listed, an
    [IndexError] or an [AttributeError] raised at any point of the [try] block
    (as by the level extraction of a cube that a time extraction left
    empty) is caught: the lists are left as they are and the loop goes on
    with the next file.  An exception of another class leaves the
    function. *)
Theorem pair_failure_handling (st : pairs V Data) (fname : string)
    (rest : list string) (info : list pyval) (g_fname : string) (e : exn) :
  get_info fname = OK info -> g_fname_of info = OK g_fname ->
  Py.contains g_files g_fname = true ->
  aligned_pair' fname g_fname = Raise e ->
  (e = IndexError \/ e = AttributeError ->
   loop_body' st fname = OK st /\ run' st (fname :: rest) = run' st rest) /\
  (e <> IndexError -> e <> AttributeError ->
   loop_body' st fname = Raise e /\ run' st (fname :: rest) = Raise e) /\
  get_ground_level ltb extract None = Raise AttributeError.
Proof.
  intros Hi Hg Hc He.
  assert (loop_body' st fname = if handled e then OK st else Raise e) as Hstep.
  { unfold loop_body. rewrite Hi. cbn [bind]. rewrite Hg. cbn [bind].
    now rewrite Hc, He. }
  split; [| split; [| reflexivity]].
  - intros Hcls.
    assert (handled e = true) as Hh by (destruct Hcls; subst; reflexivity).
    rewrite Hh in Hstep. split; [exact Hstep |].
    cbn [run]. now rewrite Hstep.
  - intros H1 H2.
    assert (handled e = false) as Hh by (destruct e; cbn; congruence).
    rewrite Hh in Hstep. split; [exact Hstep |].
    cbn [run]. now rewrite Hstep.
Qed.

End Pairing.

(** ** The driver on the sample archive *)

Example pair_up_sample :
  Sample.pair_up "air_temperature" Sample.uk_files
  = OK ([Sample.out_uk 6; Sample.out_uk 24], [Sample.out_g 6; Sample.out_g 24]).
Proof. vm_compute. reflexivity. Qed.

(** The run of 09h has no listed global file; the runs of 03h and 21h are
    kept in that order. *)
Lemma unlisted_skipped_order_kept_witness :
  Sample.turn "air_temperature" ([Sample.out_uk 6], [Sample.out_g 6])
    "prods_op_mogreps-uk_20160107_09_00_003.nc"
  = OK ([Sample.out_uk 6], [Sample.out_g 6]) /\
  Sample.pair_up "air_temperature" ["prods_op_mogreps-uk_20160107_09_00_003.nc"]
  = OK ([], []) /\
  [Sample.out_uk 6; Sample.out_uk 24]
  = map fst (Sample.entries "air_temperature" Sample.uk_files) /\
  [Sample.out_g 6; Sample.out_g 24]
  = map snd (Sample.entries "air_temperature" Sample.uk_files).
Proof.
  pose proof (unlisted_skipped_order_kept Z Z.ltb (option string) Sample.extract
                Sample.iris_load Sample.unrotate Sample.get_uk_from_global
                "air_temperature" Sample.g_files Sample.uk_path Sample.g_path)
    as Hthm.
  split; [| split].
  - apply (proj1 (Hthm []) _ _
             [PStr "20160107"; PInt 9; PInt 0; PInt 3]
             "prods_op_mogreps-g_20160107_06_00_006.nc");
      vm_compute; reflexivity.
  - apply (proj1 (proj2 (Hthm ["prods_op_mogreps-uk_20160107_09_00_003.nc"]))).
    intros fname [<- | []].
    exists [PStr "20160107"; PInt 9; PInt 0; PInt 3],
           "prods_op_mogreps-g_20160107_06_00_006.nc".
    repeat split; vm_compute; reflexivity.
  - apply (proj2 (proj2 (Hthm Sample.uk_files))).
    vm_compute. reflexivity.
Defined.

Lemma pairs_zip_witness :
  length [Sample.out_uk 6; Sample.out_uk 24] = length [Sample.out_g 6; Sample.out_g 24] /\
  combine [Sample.out_uk 6; Sample.out_uk 24] [Sample.out_g 6; Sample.out_g 24]
  = Sample.entries "air_temperature" Sample.uk_files.
Proof.
  apply (proj1 (pairs_zip Z Z.ltb (option string) Sample.extract
                  Sample.iris_load Sample.unrotate Sample.get_uk_from_global
                  "air_temperature" Sample.g_files Sample.uk_path Sample.g_path
                  Sample.uk_files)).
  vm_compute. reflexivity.
Defined.

(** The global file of the run of 15h holds no field at the last regional
    time: the time extraction gives [None], the level extraction raises
    [AttributeError], and the run of 21h is processed next. *)
Lemma pair_failure_handling_witness :
  Sample.align "air_temperature" "prods_op_mogreps-uk_20160107_15_00_003.nc"
    "prods_op_mogreps-g_20160107_12_00_006.nc" = Raise AttributeError /\
  Sample.turn "air_temperature" ([Sample.out_uk 6], [Sample.out_g 6])
    "prods_op_mogreps-uk_20160107_15_00_003.nc"
  = OK ([Sample.out_uk 6], [Sample.out_g 6]) /\
  Sample.turns "air_temperature" ([Sample.out_uk 6], [Sample.out_g 6])
    ["prods_op_mogreps-uk_20160107_15_00_003.nc";
     "prods_op_mogreps-uk_20160107_21_00_003.nc"]
  = Sample.turns "air_temperature" ([Sample.out_uk 6], [Sample.out_g 6])
      ["prods_op_mogreps-uk_20160107_21_00_003.nc"].
Proof.
  split; [vm_compute; reflexivity |].
  apply (proj1 (pair_failure_handling Z Z.ltb (option string) Sample.extract
                  Sample.iris_load Sample.unrotate Sample.get_uk_from_global
                  "air_temperature" Sample.g_files Sample.uk_path Sample.g_path
                  ([Sample.out_uk 6], [Sample.out_g 6])
                  "prods_op_mogreps-uk_20160107_15_00_003.nc"
                  ["prods_op_mogreps-uk_20160107_21_00_003.nc"]
                  [PStr "20160107"; PInt 15; PInt 0; PInt 3]
                  "prods_op_mogreps-g_20160107_12_00_006.nc" AttributeError
                  ltac:(vm_compute; reflexivity) ltac:(vm_compute; reflexivity)
                  ltac:(vm_compute; reflexivity) ltac:(vm_compute; reflexivity))).
  now right.
Defined.

(** C1 as worded fails twice on the sample archive.  No file holds
    [wet_bulb_potential_temperature]: the lookup raises [ValueError], which is
    not caught, and the function raises instead of skipping.  And the
    regional cube of 8 January has no coordinate system: parameter lookup and
    level extraction succeed, [unrotate] raises [AttributeError], and the
    pair is skipped all the same. *)
Lemma pair_failures_on_sample :
  (forall cubes, In cubes (map snd Sample.archive) ->
     cube_named cubes "wet_bulb_potential_temperature" = Raise ValueError) /\
  Sample.pair_up "wet_bulb_potential_temperature" Sample.uk_files = Raise ValueError /\
  cube_named [Sample.uk_cube "air_temperature" [27; 30] [1; 2] None] "air_temperature"
  = OK (Sample.uk_cube "air_temperature" [27; 30] [1; 2] None) /\
  get_ground_level Z.ltb Sample.extract
    (Some (Sample.uk_cube "air_temperature" [30] [1; 2] None))
  = OK (Some (Sample.uk_cube "air_temperature" [30] [1] None), Some "height") /\
  get_ground_level Z.ltb Sample.extract
    (Some (Sample.g_cube "air_temperature" [30] [900; 700]))
  = OK (Some (Sample.g_cube "air_temperature" [30] [900]), Some "pressure") /\
  Sample.align "air_temperature" "prods_op_mogreps-uk_20160108_03_00_003.nc"
    "prods_op_mogreps-g_20160108_00_00_006.nc" = Raise AttributeError /\
  Sample.pair_up "air_temperature" ["prods_op_mogreps-uk_20160108_03_00_003.nc"]
  = OK ([], []).
Proof.
  split.
  { intros cubes Hin. cbn in Hin.
    repeat (destruct Hin as [<- | Hin]; [vm_compute; reflexivity |]).
    destruct Hin. }
  repeat split; vm_compute; reflexivity.
Qed.

(** * More on [get_info] *)

Lemma string_app_assoc (a b c : string) : (a ++ b) ++ c = a ++ (b ++ c).
Proof. induction a as [| x r IH]; cbn; [reflexivity | now rewrite IH]. Qed.

(** [split] goes through a separator. *)
Lemma split_append (sep : ascii) (a b : string) :
  Py.split sep (a ++ String sep b) = (Py.split sep a ++ Py.split sep b)%list.
Proof.
  induction a as [| x r IH]; cbn.
  - now rewrite Ascii.eqb_refl.
  - destruct (Ascii.eqb x sep); rewrite IH; [reflexivity |].
    pose proof (split_nonempty sep r) as Hne.
    destruct (Py.split sep r) as [| h t]; [congruence | reflexivity].
Qed.

Lemma app_last_snoc (pre : list string) (c t : string) :
  app_last (pre ++ [c])%list t = (pre ++ [(c ++ t)%string])%list.
Proof.
  induction pre as [| x r IH]; [reflexivity |].
  cbn [Datatypes.app app_last]. rewrite IH.
  destruct r; reflexivity.
Qed.

(** Text without the separator stays in the last segment. *)
Lemma split_append_tail (sep : ascii) (a t : string) :
  no_char sep t = true ->
  Py.split sep (a ++ t) = app_last (Py.split sep a) t.
Proof.
  intros Ht. induction a as [| x r IH]; cbn [Py.split String.append].
  - now rewrite split_no_sep.
  - pose proof (split_nonempty sep r) as Hne. rewrite IH.
    destruct (Ascii.eqb x sep).
    + destruct (Py.split sep r) as [| h tl]; [congruence | reflexivity].
    + destruct (Py.split sep r) as [| h [| y tl]]; [congruence | reflexivity | reflexivity].
Qed.

Lemma segments_four (s : string) :
  (4 <= length (Py.split "_" s))%nat ->
  exists pre d a b c, Py.split "_" s = (pre ++ [d; a; b; c])%list.
Proof.
  intros Hge.
  destruct (list_snoc (Py.split "_" s) (split_nonempty _ _)) as (l3 & c & H3).
  destruct l3 as [| b l2 _] using rev_ind; [rewrite H3 in Hge; cbn in Hge; lia |].
  destruct l2 as [| a l1 _] using rev_ind; [rewrite H3 in Hge; cbn in Hge; lia |].
  destruct l1 as [| d pre _] using rev_ind; [rewrite H3 in Hge; cbn in Hge; lia |].
  exists pre, d, a, b, c. rewrite H3, <- !app_assoc. reflexivity.
Qed.

Lemma stem_append (c ext : string) : stem (c ++ String "." ext) = stem c.
Proof.
  unfold stem. rewrite split_append.
  pose proof (split_nonempty "." c) as Hne.
  destruct (Py.split "." c); [congruence | reflexivity].
Qed.

Lemma get_info_ok_not_malformed (fname : string) (info : list pyval) :
  get_info fname = OK info -> ~ malformed fname.
Proof.
  intros Hinfo [Hshort | (pre & a & b & c & Hs & Hbad)].
  - rewrite (get_info_too_short _ Hshort) in Hinfo. discriminate.
  - destruct (get_info_shape _ _ Hinfo)
      as (pre' & d' & a' & b' & c' & h & m & l & Hs' & Ha & Hb & Hc & _).
    rewrite Hs in Hs'.
    change (pre' ++ [d'; a'; b'; c'])%list
      with (pre' ++ [d'] ++ [a'; b'; c'])%list in Hs'.
    rewrite app_assoc in Hs'.
    change [a; b; c] with ([a; b] ++ [c])%list in Hs'.
    change [a'; b'; c'] with ([a'; b'] ++ [c'])%list in Hs'.
    rewrite !app_assoc in Hs'.
    apply app_inj_tail in Hs' as [Hs' <-].
    change [a; b] with ([a] ++ [b])%list in Hs'.
    change [a'; b'] with ([a'] ++ [b'])%list in Hs'.
    rewrite !app_assoc in Hs'.
    apply app_inj_tail in Hs' as [Hs' <-].
    apply app_inj_tail in Hs' as [_ <-].
    apply Hbad. unfold parseable. repeat split; eauto.
Qed.

(** [get_info] raises nothing but the index error and the parse error. *)
Lemma get_info_raises (fname : string) (e : exn) :
  get_info fname = Raise e -> format_error e = true.
Proof.
  intros He.
  destruct (Nat.lt_ge_cases (length (Py.split "_" fname)) 4) as [Hlt | Hge].
  - rewrite (get_info_too_short _ Hlt) in He. now injection He as <-.
  - destruct (segments_four fname Hge) as (pre & d & a & b & c & Hs).
    rewrite (get_info_four _ _ _ _ _ _ Hs) in He.
    destruct (Py.int a) as [h | e1] eqn:Ea; cbn [bind] in He;
      [| injection He as <-; now rewrite (int_raises _ _ Ea)].
    destruct (Py.int b) as [m | e2] eqn:Eb; cbn [bind] in He;
      [| injection He as <-; now rewrite (int_raises _ _ Eb)].
    destruct (Py.int (stem c)) as [l | e3] eqn:Ec; cbn [bind] in He;
      [discriminate | injection He as <-; now rewrite (int_raises _ _ Ec)].
Qed.

(** X1: [get_info] returns a result exactly for the names that are not
    malformed: four segments at least, the last three of them integers once
    the last is cut at its first dot. *)
Theorem get_info_succeeds_iff (fname : string) :
  (exists info, get_info fname = OK info) <-> ~ malformed fname.
Proof.
  split.
  - intros [info Hinfo]. exact (get_info_ok_not_malformed fname info Hinfo).
  - intros Hwf. destruct (get_info_well_formed fname) as [Hok | Hbad];
      [exact Hok | contradiction].
Qed.

Lemma get_info_succeeds_iff_witness :
  ~ malformed "prods_op_mogreps-uk_20160107_03_00_003.nc" /\
  ~ (exists info, get_info "mogreps-uk_20160107_03_xx_003.nc" = OK info).
Proof.
  split.
  - apply (proj1 (get_info_succeeds_iff "prods_op_mogreps-uk_20160107_03_00_003.nc")).
    eexists. vm_compute. reflexivity.
  - intros Hok.
    apply (proj1 (get_info_succeeds_iff "mogreps-uk_20160107_03_xx_003.nc") Hok).
    right. exists ["mogreps-uk"; "20160107"], "03", "xx", "003.nc".
    split; [reflexivity |].
    intros (_ & (z & Hz) & _). vm_compute in Hz. discriminate.
Defined.

Lemma get_info_date (fname : string) (pre : list string) (d a b c : string) :
  Py.split "_" fname = (pre ++ [d; a; b; c])%list -> no_char "_" d = true.
Proof.
  intros Hs. pose proof (split_segments "_" fname) as Hall.
  rewrite Hs in Hall. apply Forall_app in Hall as [_ Hall].
  now inversion Hall.
Qed.

(** X2: what [get_info] returns is always a list of four: the text of the
    fourth segment from the end, kept as it is and free of underscores, and
    the integers read from the three segments after it. *)
Theorem get_info_result (fname : string) (info : list pyval) :
  get_info fname = OK info ->
  exists pre d a b c h m l,
    Py.split "_" fname = (pre ++ [d; a; b; c])%list /\
    Py.int a = OK h /\ Py.int b = OK m /\ Py.int (stem c) = OK l /\
    info = [PStr d; PInt h; PInt m; PInt l] /\
    no_char "_" d = true.
Proof.
  intros Hinfo.
  destruct (get_info_shape _ _ Hinfo)
    as (pre & d & a & b & c & h & m & l & Hs & Ha & Hb & Hc & Heq).
  exists pre, d, a, b, c, h, m, l. repeat (split; [assumption |]).
  now apply (get_info_date fname pre d a b c).
Qed.

Lemma get_info_result_witness :
  exists pre d a b c h m l,
    Py.split "_" "prods_op_mogreps-uk_2016.01.07_ 3_+0_-3.tar.gz"
    = (pre ++ [d; a; b; c])%list /\
    Py.int a = OK h /\ Py.int b = OK m /\ Py.int (stem c) = OK l /\
    [PStr "2016.01.07"; PInt 3; PInt 0; PInt (-3)]
    = [PStr d; PInt h; PInt m; PInt l] /\
    no_char "_" d = true.
Proof.
  apply (get_info_result "prods_op_mogreps-uk_2016.01.07_ 3_+0_-3.tar.gz").
  vm_compute. reflexivity.
Defined.

(** X3: only the last four segments count.  Whatever is put in front of a
    name of four segments or more, underscores included, the result is the
    same. *)
Theorem get_info_head_ignored (head s : string) :
  (4 <= length (Py.split "_" s))%nat ->
  get_info (head ++ String "_" s) = get_info s.
Proof.
  intros Hge. destruct (segments_four s Hge) as (pre & d & a & b & c & Hs).
  rewrite (get_info_four s pre d a b c Hs).
  apply (get_info_four _ (Py.split "_" head ++ pre)%list).
  rewrite split_append, Hs, app_assoc. reflexivity.
Qed.

Lemma get_info_head_ignored_witness :
  get_info ("any_head__at_all" ++ String "_" "20160107_03_00_003.nc")
  = get_info "20160107_03_00_003.nc".
Proof.
  apply (get_info_head_ignored "any_head__at_all" "20160107_03_00_003.nc").
  vm_compute. lia.
Defined.

(** X4: an extension never changes the result.  What follows the first dot
    of the last segment is dropped, so a dot and any text without
    underscore can be appended to a name. *)
Theorem get_info_extension_ignored (s ext : string) :
  no_char "_" ext = true ->
  get_info (s ++ String "." ext) = get_info s.
Proof.
  intros Hext.
  destruct (list_snoc (Py.split "_" s) (split_nonempty _ _)) as (pre & c & Hs).
  rewrite (get_info_segments s pre c Hs).
  rewrite (get_info_segments (s ++ String "." ext) pre (c ++ String "." ext)).
  - now rewrite stem_append.
  - rewrite split_append_tail, Hs by (unfold no_char in *; cbn; exact Hext).
    apply app_last_snoc.
Qed.

Lemma get_info_extension_ignored_witness :
  get_info ("prods_op_mogreps-uk_20160107_03_00_003.nc" ++ String "." "bak.gz")
  = get_info "prods_op_mogreps-uk_20160107_03_00_003.nc".
Proof.
  apply (get_info_extension_ignored "prods_op_mogreps-uk_20160107_03_00_003.nc"
           "bak.gz").
  reflexivity.
Defined.

(** X5: [get_info] reads back any name written in the convention: a head, a
    date without underscore, three integers written with [{:0Wd}] for any
    widths, an extension without underscore. *)
Theorem get_info_reads_convention (head d ext : string) (h m l : Z) (w1 w2 w3 : nat) :
  no_char "_" d = true -> no_char "_" ext = true ->
  get_info (convention_name head d (Py.format_0d w1 h) (Py.format_0d w2 m)
              (Py.format_0d w3 l) ext)
  = OK [PStr d; PInt h; PInt m; PInt l].
Proof.
  intros Hd Hext. unfold convention_name.
  assert (Py.split "_" (d ++ String "_" (Py.format_0d w1 h ++ String "_"
            (Py.format_0d w2 m ++ String "_" (Py.format_0d w3 l ++ String "." ext))))
          = [d; Py.format_0d w1 h; Py.format_0d w2 m;
             Py.format_0d w3 l ++ String "." ext]) as Hs.
  { rewrite !split_app by (assumption || now apply format_0d_no_char).
    rewrite split_no_sep; [reflexivity |].
    rewrite no_char_app, format_0d_no_char by reflexivity.
    unfold no_char in *. cbn. exact Hext. }
  assert (Py.split "_" (head ++ String "_" (d ++ String "_" (Py.format_0d w1 h
            ++ String "_" (Py.format_0d w2 m ++ String "_"
                 (Py.format_0d w3 l ++ String "." ext)))))
          = (Py.split "_" head
             ++ [d; Py.format_0d w1 h; Py.format_0d w2 m;
                 (Py.format_0d w3 l ++ String "." ext)%string])%list) as Hs'
    by (rewrite split_append, Hs; reflexivity).
  rewrite (get_info_four _ _ _ _ _ _ Hs').
  rewrite !int_format_0d. cbn [bind].
  rewrite stem_ext by (now apply format_0d_no_char).
  rewrite int_format_0d. reflexivity.
Qed.

Lemma get_info_reads_convention_witness :
  get_info (convention_name "prods_op_mogreps-uk" "20160107" (Py.format_0d 2 (-3))
              (Py.format_0d 2 11) (Py.format_0d 3 1236) "nc")
  = OK [PStr "20160107"; PInt (-3); PInt 11; PInt 1236].
Proof.
  apply (get_info_reads_convention "prods_op_mogreps-uk" "20160107" "nc"
           (-3) 11 1236 2 2 3); reflexivity.
Defined.

(** X6: the global name tells the parsed fields.  Two regional names are
    sent to the same global name only when they parse to the same date, run
    hour, member and lead. *)
Theorem global_name_injective (f1 f2 : string) (i1 i2 : list pyval) :
  get_info f1 = OK i1 -> get_info f2 = OK i2 ->
  g_fname_of i1 = g_fname_of i2 -> i1 = i2.
Proof.
  intros H1 H2 Hg.
  destruct (get_info_shape _ _ H1)
    as (? & d1 & ? & ? & ? & h1 & m1 & l1 & Hs1 & _ & _ & _ & ->).
  destruct (get_info_shape _ _ H2)
    as (? & d2 & ? & ? & ? & h2 & m2 & l2 & Hs2 & _ & _ & _ & ->).
  pose proof (get_info_date _ _ _ _ _ _ Hs1) as Hd1.
  pose proof (get_info_date _ _ _ _ _ _ Hs2) as Hd2.
  rewrite !g_fname_of_info in Hg.
  assert (forall a b : string, OK a = OK b -> a = b) as OK_inj by congruence.
  apply OK_inj in Hg.
  pose proof (get_info_global_name d1 (h1 - 3) m1 (l1 + 3) Hd1) as R1.
  pose proof (get_info_global_name d2 (h2 - 3) m2 (l2 + 3) Hd2) as R2.
  rewrite Hg, R2 in R1. injection R1 as -> Hh -> Hl.
  repeat f_equal; lia.
Qed.

Lemma global_name_injective_witness :
  [PStr "20160107"; PInt 3; PInt 0; PInt 3] = [PStr "20160107"; PInt 3; PInt 0; PInt 3].
Proof.
  apply (global_name_injective "prods_op_mogreps-uk_20160107_03_00_003.nc"
           "other_20160107_+3_0_3"); vm_compute; reflexivity.
Defined.

(** * More on [get_ground_level] *)

Lemma prefix_until_newline (p s : string) :
  single_line p = true -> String.prefix p s = true ->
  String.prefix p (until_newline s) = true.
Proof.
  revert s. induction p as [| a p IH]; intros s Hp Hs;
    [destruct (until_newline s); reflexivity |].
  destruct s as [| b s]; [discriminate |].
  cbn in Hp. apply andb_prop in Hp as [Ha Hp]. apply negb_true_iff in Ha.
  cbn in Hs. destruct (ascii_dec a b) as [<- |]; [| discriminate].
  cbn. rewrite Ha. cbn. destruct (ascii_dec a a); [| congruence].
  now apply IH.
Qed.

Section GroundLevelMore.

Variable V : Type.
Variable ltb : V -> V -> bool.
Variable Data : Type.
Variable extract : Cube V Data -> string -> V -> result (option (Cube V Data)).

#[local] Open Scope list_scope.

(** The name held after the loop was matched against the pattern. *)
Lemma scan_coords_name (p : string) (c : Cube V Data) (ds : list (Coord V))
    (cur cur' : option (string * Coord V)) :
  single_line p = true ->
  (forall n vc, cur = Some (n, vc) -> String.prefix p n = true) ->
  scan_coords p c ds cur = OK cur' ->
  forall n vc, cur' = Some (n, vc) -> String.prefix p n = true.
Proof.
  intros Hp. revert cur. induction ds as [| d t IH]; intros cur Hcur; cbn [scan_coords].
  - intros [= <-]. exact Hcur.
  - unfold re_match. destruct (String.prefix p (coord_name d)) eqn:Hd.
    + destruct (cube_coord c (until_newline (coord_name d))) as [vc0 | e];
        cbn [bind]; [| discriminate].
      apply IH. intros n vc [= <- <-]. now apply prefix_until_newline.
    + now apply IH.
Qed.

(** X7: a name returned by [get_ground_level] starts with "height" or with
    "pressure"; it is never the empty string, so the caller's [if uk_h:] is
    true whenever a name is returned. *)
Theorem ground_level_name (cube g : option (Cube V Data)) (name : string) :
  get_ground_level ltb extract cube = OK (g, Some name) ->
  (String.prefix "height" name = true \/ String.prefix "pressure" name = true) /\
  name <> EmptyString.
Proof.
  intros Hres.
  assert (String.prefix "height" name = true \/ String.prefix "pressure" name = true)
    as Hp.
  { unfold get_ground_level in Hres.
    destruct cube as [c |]; cbn [attr bind] in Hres; [| discriminate].
    destruct (any_match "height" c).
    - destruct (scan_coords "height" c (cube_coords c) None) as [cur |] eqn:Hscan;
        cbn [bind] in Hres; [| discriminate].
      destruct cur as [[n vc] |]; cbn [bind bound] in Hres; [| discriminate].
      destruct (py_min ltb (coord_points vc)); cbn [bind] in Hres; [| discriminate].
      destruct (extract c n a); cbn [bind] in Hres; [| discriminate].
      injection Hres as _ <-. left.
      apply (scan_coords_name "height" c _ None _ eq_refl
               ltac:(discriminate) Hscan n vc eq_refl).
    - destruct (any_match "pressure" c); [| discriminate].
      destruct (scan_coords "pressure" c (cube_coords c) None) as [cur |] eqn:Hscan;
        cbn [bind] in Hres; [| discriminate].
      destruct cur as [[n vc] |]; cbn [bind bound] in Hres; [| discriminate].
      destruct (py_max ltb (coord_points vc)); cbn [bind] in Hres; [| discriminate].
      destruct (extract c n a); cbn [bind] in Hres; [| discriminate].
      injection Hres as _ <-. right.
      apply (scan_coords_name "pressure" c _ None _ eq_refl
               ltac:(discriminate) Hscan n vc eq_refl). }
  split; [exact Hp |].
  intros ->. destruct Hp; discriminate.
Qed.

(** X8: [get_ground_level] returns no name only for a cube without height
    and pressure coordinates, and then it returns the cube it was given. *)
Theorem ground_level_no_name (cube g : option (Cube V Data)) :
  get_ground_level ltb extract cube = OK (g, None) ->
  g = cube /\
  exists c, cube = Some c /\
    forall d, In d (cube_coords c) ->
      named_like "height" d = false /\ named_like "pressure" d = false.
Proof.
  unfold get_ground_level.
  destruct cube as [c |]; cbn [attr bind]; [| discriminate].
  destruct (any_match "height" c) eqn:Hh.
  { destruct (scan_coords "height" c (cube_coords c) None) as [cur |];
      cbn [bind]; [| discriminate].
    destruct cur as [[n vc] |]; cbn [bind bound]; [| discriminate].
    destruct (py_min ltb (coord_points vc)); cbn [bind]; [| discriminate].
    destruct (extract c n a); cbn [bind]; discriminate. }
  destruct (any_match "pressure" c) eqn:Hp.
  { destruct (scan_coords "pressure" c (cube_coords c) None) as [cur |];
      cbn [bind]; [| discriminate].
    destruct cur as [[n vc] |]; cbn [bind bound]; [| discriminate].
    destruct (py_max ltb (coord_points vc)); cbn [bind]; [| discriminate].
    destruct (extract c n a); cbn [bind]; discriminate. }
  intros [= <-]. split; [reflexivity |].
  exists c. split; [reflexivity |].
  intros d Hd. rewrite any_match_named in Hh, Hp.
  split; apply not_true_is_false; intros Hn.
  - rewrite (proj2 (existsb_exists _ _) (ex_intro _ d (conj Hd Hn))) in Hh. discriminate.
  - rewrite (proj2 (existsb_exists _ _) (ex_intro _ d (conj Hd Hn))) in Hp. discriminate.
Qed.

End GroundLevelMore.

Lemma ground_level_name_witness :
  (String.prefix "height" "height_above_ground" = true \/
   String.prefix "pressure" "height_above_ground" = true) /\
  "height_above_ground" <> EmptyString.
Proof.
  apply (ground_level_name Z Z.ltb (option string) Sample.extract (Some Sample.tall)
           (Some (mkCube "air_temperature"
                    [mkCoord "time" [3]; mkCoord "height" [10; 5; 20];
                     mkCoord "pressure" [850; 1000; 500];
                     mkCoord "height_above_ground" [2]]
                    (Some "GeogCS")))).
  vm_compute. reflexivity.
Defined.

Lemma ground_level_no_name_witness :
  Some Sample.flat = Some Sample.flat /\
  exists c, Some Sample.flat = Some c /\
    forall d, In d (cube_coords c) ->
      named_like "height" d = false /\ named_like "pressure" d = false.
Proof.
  apply (ground_level_no_name Z Z.ltb (option string) Sample.extract).
  vm_compute. reflexivity.
Defined.

Section GroundLevelErrors.

Variable V : Type.
Variable ltb : V -> V -> bool.
Variable Data : Type.
Variable extract : Cube V Data -> string -> V -> result (option (Cube V Data)).

#[local] Open Scope list_scope.

Lemma cube_coord_well_named (c : Cube V Data) (d : Coord V) :
  well_named c -> In d (cube_coords c) -> cube_coord c (coord_name d) = OK d.
Proof.
  intros [Hnd _] Hin. unfold cube_coord.
  now rewrite (filter_name_unique V _ _ Hnd Hin).
Qed.

Lemma scan_coords_well_named (p : string) (c : Cube V Data) (ds : list (Coord V))
    (cur : option (string * Coord V)) :
  well_named c -> incl ds (cube_coords c) ->
  exists cur', scan_coords p c ds cur = OK cur'.
Proof.
  intros Hwn. revert cur.
  induction ds as [| d t IH]; intros cur Hincl; cbn [scan_coords]; [eauto |].
  assert (In d (cube_coords c)) as Hd by (apply Hincl; now left).
  assert (incl t (cube_coords c)) as Ht by (intros x Hx; apply Hincl; now right).
  pose proof Hwn as [_ Hall]. rewrite Forall_forall in Hall.
  rewrite (re_match_named V p d (Hall d Hd)).
  destruct (named_like p d); [| now apply IH].
  rewrite (cube_coord_well_named c d Hwn Hd). cbn [bind]. now apply IH.
Qed.

Lemma scan_coords_last_named (p : string) (c : Cube V Data) (d : Coord V)
    (cur : option (string * Coord V)) :
  well_named c -> last_named_like p (cube_coords c) d ->
  scan_coords p c (cube_coords c) cur = OK (Some (coord_name d, d)).
Proof.
  intros Hwn (l1 & l2 & Hds & Hd & Hl2).
  assert (In d (cube_coords c)) as Hin
    by (rewrite Hds; apply in_or_app; right; now left).
  assert (incl l1 (cube_coords c)) as Hl1
    by (intros x Hx; rewrite Hds; apply in_or_app; now left).
  rewrite Hds, scan_coords_app.
  destruct (scan_coords_well_named p c l1 cur Hwn Hl1) as [cur' ->].
  cbn [bind scan_coords].
  pose proof Hwn as [_ Hall]. rewrite Forall_forall in Hall.
  rewrite (re_match_named V p d (Hall d Hin)), Hd.
  rewrite (cube_coord_well_named c d Hwn Hin). cbn [bind].
  now apply scan_coords_none.
Qed.

Lemma no_height (c : Cube V Data) :
  (forall d, In d (cube_coords c) -> named_like "height" d = false) ->
  any_match "height" c = false.
Proof.
  intros Hno. rewrite any_match_named. apply not_true_is_false.
  intros (x & Hx & Hnx)%existsb_exists. rewrite (Hno x Hx) in Hnx. discriminate.
Qed.

(** X9: when the coordinate that the loop selects has no point, [min] (or
    [max]) has nothing to choose from and [get_ground_level] raises
    [ValueError], whatever [extract] would do. *)
Theorem ground_level_no_point (c : Cube V Data) (d : Coord V) :
  well_named c -> coord_points d = [] ->
  (last_named_like "height" (cube_coords c) d ->
   get_ground_level ltb extract (Some c) = Raise ValueError) /\
  ((forall d', In d' (cube_coords c) -> named_like "height" d' = false) ->
   last_named_like "pressure" (cube_coords c) d ->
   get_ground_level ltb extract (Some c) = Raise ValueError).
Proof.
  intros Hwn Hpts. split.
  - intros Hlast. destruct (last_named_like_in V _ _ _ Hlast) as [Hin Hd].
    unfold get_ground_level. cbn [attr bind].
    rewrite (named_like_any V Data _ _ _ Hin Hd).
    rewrite (scan_coords_last_named _ _ _ None Hwn Hlast). cbn [bind bound].
    rewrite Hpts. reflexivity.
  - intros Hno Hlast. destruct (last_named_like_in V _ _ _ Hlast) as [Hin Hd].
    unfold get_ground_level. cbn [attr bind].
    rewrite (no_height c Hno), (named_like_any V Data _ _ _ Hin Hd).
    rewrite (scan_coords_last_named _ _ _ None Hwn Hlast). cbn [bind bound].
    rewrite Hpts. reflexivity.
Qed.

(** ** Names that several coordinates share *)

Lemma cube_coord_found (c : Cube V Data) (n : string) (d : Coord V) :
  cube_coord c n = OK d -> borne_once c n.
Proof.
  unfold cube_coord, borne_once.
  destruct (filter (fun d0 => String.eqb (coord_name d0) n) (cube_coords c))
    as [| x [| y r]]; try discriminate.
  reflexivity.
Qed.

Lemma scan_coords_lookup_fails (p : string) (c : Cube V Data) (ds : list (Coord V))
    (d : Coord V) (cur : option (string * Coord V)) :
  In d ds -> named_like p d = true ->
  ~ borne_once c (until_newline (coord_name d)) ->
  scan_coords p c ds cur = Raise CoordinateNotFoundError.
Proof.
  intros Hin Hd Hnot. revert cur.
  induction ds as [| d0 t IH]; intros cur; [destruct Hin |].
  cbn [scan_coords]. unfold re_match.
  destruct (String.prefix p (coord_name d0)) eqn:Hp.
  - destruct (cube_coord c (until_newline (coord_name d0))) as [vc | e] eqn:Hvc;
      cbn [bind].
    + destruct Hin as [-> | Hin].
      * exfalso. apply Hnot. exact (cube_coord_found _ _ _ Hvc).
      * now apply IH.
    + f_equal. unfold cube_coord in Hvc.
      destruct (filter (fun d1 => String.eqb (coord_name d1)
                                    (until_newline (coord_name d0))) (cube_coords c))
        as [| x [| y r]]; congruence.
  - destruct Hin as [-> | Hin]; [| now apply IH].
    unfold named_like in Hd. congruence.
Qed.

(** X10: [cube.coord] is called at every coordinate whose name matches, not
    only at the last one, with the name as the pattern returns it (the name
    cut at its first line feed).  When at one of them that name is borne by
    no coordinate of the cube or by several, the lookup fails and
    [get_ground_level] raises [CoordinateNotFoundError], even if a later
    coordinate would have been the one selected. *)
Theorem ground_level_lookup_fails (c : Cube V Data) (d : Coord V) :
  In d (cube_coords c) ->
  ~ borne_once c (until_newline (coord_name d)) ->
  (named_like "height" d = true ->
   get_ground_level ltb extract (Some c) = Raise CoordinateNotFoundError) /\
  ((forall d', In d' (cube_coords c) -> named_like "height" d' = false) ->
   named_like "pressure" d = true ->
   get_ground_level ltb extract (Some c) = Raise CoordinateNotFoundError).
Proof.
  intros Hin Hnot. split.
  - intros Hd. unfold get_ground_level. cbn [attr bind].
    rewrite (named_like_any V Data _ _ _ Hin Hd).
    now rewrite (scan_coords_lookup_fails "height" c _ d None Hin Hd Hnot).
  - intros Hno Hd. unfold get_ground_level. cbn [attr bind].
    rewrite (no_height c Hno), (named_like_any V Data _ _ _ Hin Hd).
    now rewrite (scan_coords_lookup_fails "pressure" c _ d None Hin Hd Hnot).
Qed.

End GroundLevelErrors.

Lemma well_named_by_computation {V Data : Type} (c : Cube V Data) :
  NoDup (map coord_name (cube_coords c)) ->
  forallb (fun d => single_line (coord_name d)) (cube_coords c) = true ->
  well_named c.
Proof.
  intros Hnd Hall. split; [exact Hnd |].
  rewrite forallb_forall in Hall. apply Forall_forall. exact Hall.
Qed.

Lemma ground_level_no_point_witness :
  get_ground_level Z.ltb Sample.extract (Some Odd.hollow) = Raise ValueError.
Proof.
  apply (proj1 (ground_level_no_point Z Z.ltb (option string) Sample.extract
                  Odd.hollow (mkCoord "height" [])
                  ltac:(apply well_named_by_computation; [distinct_names | reflexivity])
                  eq_refl)).
  exists [mkCoord "time" [3]], [mkCoord "pressure" [850; 1000]].
  repeat split; reflexivity.
Defined.

(** The first of the two coordinates named "height", and a coordinate
    whose name, cut at its line feed, is the name of no coordinate. *)
Lemma ground_level_lookup_fails_witness :
  get_ground_level Z.ltb Sample.extract (Some Odd.twice) = Raise CoordinateNotFoundError /\
  get_ground_level Z.ltb Sample.extract (Some Odd.broken_name)
  = Raise CoordinateNotFoundError.
Proof.
  split.
  - apply (proj1 (ground_level_lookup_fails Z Z.ltb (option string) Sample.extract
                    Odd.twice (mkCoord "height" [10; 5])
                    ltac:(cbn; auto)
                    ltac:(intros H; vm_compute in H; discriminate)));
      reflexivity.
  - apply (proj1 (ground_level_lookup_fails Z Z.ltb (option string) Sample.extract
                    Odd.broken_name
                    (mkCoord (String.append "height" (String (ascii_of_nat 10) "above"))
                       [10; 5])
                    ltac:(cbn; auto)
                    ltac:(intros H; vm_compute in H; discriminate)));
      reflexivity.
Defined.

(** * More on [get_uk_global_pairs] *)

Lemma index_absent (l : list string) (x : string) :
  ~ In x l -> Py.index l x = Raise ValueError.
Proof.
  induction l as [| a t IH]; cbn; [reflexivity |].
  intros Hn. destruct (String.eqb_spec a x) as [-> | _].
  - exfalso. apply Hn. now left.
  - rewrite IH by (intros Hin; apply Hn; now right). reflexivity.
Qed.

Lemma index_raises (l : list string) (x : string) (e : exn) :
  Py.index l x = Raise e -> e = ValueError.
Proof.
  induction l as [| a t IH]; cbn; [congruence |].
  destruct (String.eqb a x); [discriminate |].
  destruct (Py.index t x) as [k | e']; cbn [bind]; [discriminate |].
  intros [= <-]. now apply IH.
Qed.

Lemma index_range (l : list string) (x : string) (i : Z) :
  Py.index l x = OK i -> 0 <= i < Z.of_nat (length l).
Proof.
  revert i. induction l as [| a t IH]; cbn [Py.index]; [discriminate |].
  intros i. destruct (String.eqb a x); [intros [= <-]; cbn [length]; lia |].
  destruct (Py.index t x) as [k |] eqn:Ek; cbn [bind]; [| discriminate].
  intros [= <-]. specialize (IH _ eq_refl). cbn [length]. lia.
Qed.

Section PairingMore.

Variable V : Type.
Variable ltb : V -> V -> bool.
Variable Data : Type.
Variable extract : Cube V Data -> string -> V -> result (option (Cube V Data)).
Variable iris_load : string -> result (list (Cube V Data)).
Variable unrotate : option (Cube V Data) -> option (Cube V Data) -> result (Cube V Data).
Variable get_uk_from_global : option (Cube V Data) -> Cube V Data -> result (Cube V Data).
Variable param : string.
Variable g_files : list string.
Variable uk_path g_path : string.

#[local] Open Scope list_scope.

#[local] Abbreviation aligned_pair' :=
  (aligned_pair ltb extract iris_load unrotate get_uk_from_global param uk_path g_path).
#[local] Abbreviation loop_body' :=
  (loop_body ltb extract iris_load unrotate get_uk_from_global param g_files
     uk_path g_path).
#[local] Abbreviation run' :=
  (run ltb extract iris_load unrotate get_uk_from_global param g_files uk_path g_path).
#[local] Abbreviation get_uk_global_pairs' :=
  (get_uk_global_pairs ltb extract iris_load unrotate get_uk_from_global param
     g_files uk_path g_path).

(** ** The cube of a parameter *)

Lemma cube_named_raises (cubes : list (Cube V Data)) (name : string) (e : exn) :
  cube_named cubes name = Raise e -> e = ValueError.
Proof.
  unfold cube_named.
  destruct (Py.index (map cube_name cubes) name) as [i | e'] eqn:Ei; cbn [bind].
  - pose proof (index_range _ _ _ Ei) as Hr. rewrite length_map in Hr.
    destruct (nth_error cubes (Z.to_nat i)) as [c |] eqn:En.
    + rewrite <- (Z2Nat.id i) by lia. rewrite (getitem_nat _ _ _ En). discriminate.
    + apply nth_error_None in En. lia.
  - intros [= <-]. exact (index_raises _ _ _ Ei).
Qed.

(** X11: the cube taken from a loaded list is the first one that bears the
    name of the parameter, when several do; with none of that name the lookup
    raises [ValueError]. *)
Theorem cube_named_first (cubes : list (Cube V Data)) (name : string) :
  (forall l1 c l2,
     cubes = l1 ++ c :: l2 -> cube_name c = name ->
     (forall c', In c' l1 -> cube_name c' <> name) ->
     cube_named cubes name = OK c) /\
  ((forall c, In c cubes -> cube_name c <> name) ->
   cube_named cubes name = Raise ValueError).
Proof.
  split.
  - intros l1 c l2 -> Hc Hl1. unfold cube_named.
    assert (Py.index (map cube_name (l1 ++ c :: l2)) name = OK (Z.of_nat (length l1)))
      as ->.
    { clear - Hc Hl1. induction l1 as [| a t IH]; cbn.
      - rewrite Hc, String.eqb_refl. reflexivity.
      - destruct (String.eqb_spec (cube_name a) name) as [He | _].
        + exfalso. apply (Hl1 a); [now left | exact He].
        + rewrite IH by (intros c' Hc'; apply Hl1; now right).
          cbn [bind]. f_equal. lia. }
    cbn [bind]. apply getitem_nat.
    rewrite nth_error_app2, Nat.sub_diag by lia. reflexivity.
  - intros Hno. unfold cube_named. rewrite index_absent; [reflexivity |].
    intros (c & Hc & Hin)%in_map_iff. exact (Hno c Hin Hc).
Qed.

(** ** The loop *)

Lemma loop_body_from (st : pairs V Data) (fname : string) :
  loop_body' st fname =
    ('(uks, gs) <- loop_body' ([], []) fname ;; OK (fst st ++ uks, snd st ++ gs)).
Proof.
  unfold loop_body. destruct st as [uks0 gs0]. cbn [fst snd].
  destruct (get_info fname) as [info | e]; cbn [bind]; [| reflexivity].
  destruct (g_fname_of info) as [g_fname | e]; cbn [bind]; [| reflexivity].
  destruct (Py.contains g_files g_fname).
  - destruct (aligned_pair' fname g_fname) as [[u g] | e]; cbn [bind].
    + reflexivity.
    + destruct (handled e); cbn [bind]; [| reflexivity]. now rewrite !app_nil_r.
  - cbn [bind]. now rewrite !app_nil_r.
Qed.

Lemma run_from (uk_files : list string) (st : pairs V Data) :
  run' st uk_files =
    ('(uks, gs) <- run' ([], []) uk_files ;; OK (fst st ++ uks, snd st ++ gs)).
Proof.
  revert st. induction uk_files as [| fname rest IH]; intros st; cbn [run].
  - cbn [bind]. destruct st. cbn. now rewrite !app_nil_r.
  - rewrite (loop_body_from st fname).
    destruct (loop_body' ([], []) fname) as [[u1 g1] | e]; cbn [bind]; [| reflexivity].
    rewrite (IH (fst st ++ u1, snd st ++ g1)), (IH (u1, g1)).
    destruct (run' ([], []) rest) as [[u2 g2] | e]; cbn [bind fst snd]; [| reflexivity].
    now rewrite !app_assoc.
Qed.

Lemma run_app (l1 l2 : list string) (st : pairs V Data) :
  run' st (l1 ++ l2) = (st1 <- run' st l1 ;; run' st1 l2).
Proof.
  revert st. induction l1 as [| f t IH]; intros st; cbn [run Datatypes.app bind];
    [reflexivity |].
  destruct (loop_body' st f) as [st1 | e]; cbn [bind]; [apply IH | reflexivity].
Qed.

(** X12: the files are processed one after the other and independently.
    The result for a list made of two parts is the result for the first
    part followed by the result for the second; an exception raised in the
    first part is the one that leaves the function, and the second part is
    not looked at. *)
Theorem pairs_of_concatenation (l1 l2 : list string) :
  get_uk_global_pairs ltb extract iris_load unrotate get_uk_from_global param
    g_files uk_path g_path (l1 ++ l2) =
    ('(uks1, gs1) <- get_uk_global_pairs ltb extract iris_load unrotate
                       get_uk_from_global param g_files uk_path g_path l1 ;;
     '(uks2, gs2) <- get_uk_global_pairs ltb extract iris_load unrotate
                       get_uk_from_global param g_files uk_path g_path l2 ;;
     OK (uks1 ++ uks2, gs1 ++ gs2)).
Proof.
  unfold get_uk_global_pairs. rewrite run_app.
  destruct (run' ([], []) l1) as [[u1 g1] | e]; cbn [bind]; [| reflexivity].
  rewrite (run_from l2 (u1, g1)). reflexivity.
Qed.

(** X13: a malformed regional name is fatal.  [get_info] is called before
    the [try] block, so once the files before it have been processed the
    function raises the index error or the parse error of that name, whatever
    the global files and the archive are, and returns nothing. *)
Theorem malformed_name_fatal (before after : list string) (fname : string)
    (st : pairs V Data) :
  get_uk_global_pairs' before = OK st ->
  malformed fname ->
  exists e, get_uk_global_pairs' (before ++ fname :: after) = Raise e /\
            format_error e = true.
Proof.
  intros Hbefore Hbad. unfold get_uk_global_pairs in *.
  rewrite run_app, Hbefore. cbn [bind run].
  destruct (get_info fname) as [info | e] eqn:Hinfo.
  - exfalso. exact (get_info_ok_not_malformed _ _ Hinfo Hbad).
  - exists e. split; [| exact (get_info_raises _ _ Hinfo)].
    unfold loop_body. rewrite Hinfo. reflexivity.
Qed.

(** X14: there are never more output pairs than regional files whose
    global name is listed. *)
Theorem pairs_bounded (uk_files : list string) (uks gs : list (Cube V Data)) :
  get_uk_global_pairs' uk_files = OK (uks, gs) ->
  (length uks <= length (filter (is_listed g_files) uk_files))%nat /\
  (length uks <= length uk_files)%nat.
Proof.
  intros Hrun.
  assert (length uks <= length (filter (is_listed g_files) uk_files))%nat as Hle.
  { apply run_kept in Hrun. cbn in Hrun. injection Hrun as -> _.
    rewrite length_map. clear.
    induction uk_files as [| f t IH]; [reflexivity |].
    unfold kept in *. cbn [flat_map filter]. rewrite length_app.
    unfold kept_pair at 1, is_listed at 1.
    destruct (info <- get_info f ;; g_fname_of info) as [g |]; [| exact IH].
    destruct (Py.contains g_files g); [| exact IH].
    cbn [length]. destruct (aligned_pair' f g); cbn [entry length]; lia. }
  split; [exact Hle |].
  pose proof (filter_length_le (is_listed g_files) uk_files). lia.
Qed.

(** X15: an absent parameter is fatal.  When the two files of a listed pair
    load and the regional or the global list of cubes holds no cube of the
    parameter, the lookup raises [ValueError], which the handler does not
    name: the function raises it and the files that follow are not
    processed. *)
Theorem absent_parameter_fatal (st : pairs V Data) (fname : string)
    (rest : list string) (info : list pyval) (g_fname : string)
    (uk_cubes g_cubes : list (Cube V Data)) :
  get_info fname = OK info -> g_fname_of info = OK g_fname ->
  Py.contains g_files g_fname = true ->
  iris_load (g_path ++ g_fname)%string = OK g_cubes ->
  iris_load (uk_path ++ fname)%string = OK uk_cubes ->
  ~ (In param (map cube_name uk_cubes) /\ In param (map cube_name g_cubes)) ->
  loop_body' st fname = Raise ValueError /\
  run' st (fname :: rest) = Raise ValueError.
Proof.
  intros Hi Hg Hc Hlg Hluk Habs.
  assert (aligned_pair' fname g_fname = Raise ValueError) as Hpair.
  { unfold aligned_pair. rewrite Hlg. cbn [bind]. rewrite Hluk. cbn [bind].
    destruct (in_dec string_dec param (map cube_name uk_cubes)) as [Huk | Huk].
    - assert (~ In param (map cube_name g_cubes)) as Hgn by tauto.
      destruct (cube_named uk_cubes param) as [uk | e] eqn:Euk; cbn [bind].
      + unfold cube_named at 1. rewrite (index_absent _ _ Hgn). reflexivity.
      + now rewrite (cube_named_raises _ _ _ Euk).
    - unfold cube_named at 1. rewrite (index_absent _ _ Huk). reflexivity. }
  assert (loop_body' st fname = Raise ValueError) as Hstep.
  { unfold loop_body. rewrite Hi. cbn [bind]. rewrite Hg. cbn [bind].
    now rewrite Hc, Hpair. }
  split; [exact Hstep |]. cbn [run]. now rewrite Hstep.
Qed.

(** X16: a global file without the last regional time is skipped.  When
    both cubes are found, the regional cube is cut down to its last time and
    loses its vertical coordinate without error, and the time extraction on
    the global cube finds nothing, the level extraction of the global cube
    raises [AttributeError] on [None]; the handler catches it and the lists
    are left as they were. *)
Theorem global_without_time_skipped (st : pairs V Data) (fname g_fname : string)
    (info : list pyval) (uk_cubes g_cubes : list (Cube V Data))
    (uk_cube g_cube uk1 : Cube V Data) (t t1 : V)
    (uk2 uk3 : option (Cube V Data)) (uk_h : option string) :
  get_info fname = OK info -> g_fname_of info = OK g_fname ->
  Py.contains g_files g_fname = true ->
  iris_load (g_path ++ g_fname)%string = OK g_cubes ->
  iris_load (uk_path ++ fname)%string = OK uk_cubes ->
  cube_named uk_cubes param = OK uk_cube ->
  cube_named g_cubes param = OK g_cube ->
  last_time (Some uk_cube) = OK t ->
  extract uk_cube "time" t = OK (Some uk1) ->
  last_time (Some uk1) = OK t1 ->
  extract g_cube "time" t1 = OK None ->
  get_ground_level ltb extract (Some uk1) = OK (uk2, uk_h) ->
  drop_vertical uk2 uk_h = OK uk3 ->
  aligned_pair' fname g_fname = Raise AttributeError /\
  loop_body' st fname = OK st.
Proof.
  intros Hi Hg Hc Hlg Hluk Huk Hgc Ht Hx Ht1 Hx1 Hlev Hdrop.
  assert (aligned_pair' fname g_fname = Raise AttributeError) as Hpair.
  { unfold aligned_pair.
    rewrite Hlg. cbn [bind]. rewrite Hluk. cbn [bind].
    rewrite Huk. cbn [bind]. rewrite Hgc. cbn [bind].
    rewrite Ht. cbn [bind]. rewrite Hx. cbn [bind].
    rewrite Ht1. cbn [bind]. rewrite Hx1. cbn [bind attr].
    unfold last_time in Ht1. cbn [attr bind] in Ht1.
    destruct (cube_coord uk1 "time") as [tc |]; cbn [bind] in Ht1; [| discriminate].
    cbn [bind]. rewrite Hlev. cbn [bind]. rewrite Hdrop. reflexivity. }
  split; [exact Hpair |].
  unfold loop_body. rewrite Hi. cbn [bind]. rewrite Hg. cbn [bind].
  now rewrite Hc, Hpair.
Qed.

End PairingMore.

(** ** On the sample archive *)

Lemma cube_named_first_witness :
  cube_named [Sample.uk_cube "air_pressure" [3; 6] [5] None;
              Sample.uk_cube "air_temperature" [3; 6] [10; 5] None;
              Sample.uk_cube "air_temperature" [3; 6] [2] None] "air_temperature"
  = OK (Sample.uk_cube "air_temperature" [3; 6] [10; 5] None) /\
  cube_named [Sample.uk_cube "air_pressure" [3; 6] [5] None] "air_temperature"
  = Raise ValueError.
Proof.
  split.
  - apply (proj1 (cube_named_first Z (option string) _ "air_temperature")
             [Sample.uk_cube "air_pressure" [3; 6] [5] None]
             (Sample.uk_cube "air_temperature" [3; 6] [10; 5] None)
             [Sample.uk_cube "air_temperature" [3; 6] [2] None]);
      [reflexivity | reflexivity |].
    intros c' [<- | []]. discriminate.
  - apply (proj2 (cube_named_first Z (option string) _ "air_temperature")).
    intros c [<- | []]. discriminate.
Defined.

Lemma malformed_name_fatal_witness :
  exists e,
    Sample.pair_up "air_temperature"
      (["prods_op_mogreps-uk_20160107_03_00_003.nc"]
       ++ "mogreps_003.nc" :: ["prods_op_mogreps-uk_20160107_21_00_003.nc"])%list
    = Raise e /\ format_error e = true.
Proof.
  apply (malformed_name_fatal Z Z.ltb (option string) Sample.extract
           Sample.iris_load Sample.unrotate Sample.get_uk_from_global
           "air_temperature" Sample.g_files Sample.uk_path Sample.g_path
           ["prods_op_mogreps-uk_20160107_03_00_003.nc"]
           ["prods_op_mogreps-uk_20160107_21_00_003.nc"] "mogreps_003.nc"
           ([Sample.out_uk 6], [Sample.out_g 6])).
  - vm_compute. reflexivity.
  - left. vm_compute. lia.
Defined.

Lemma pairs_bounded_witness :
  (length [Sample.out_uk 6; Sample.out_uk 24]
   <= length (filter (is_listed Sample.g_files) Sample.uk_files))%nat /\
  (length [Sample.out_uk 6; Sample.out_uk 24] <= length Sample.uk_files)%nat.
Proof.
  apply (pairs_bounded Z Z.ltb (option string) Sample.extract
           Sample.iris_load Sample.unrotate Sample.get_uk_from_global
           "air_temperature" Sample.g_files Sample.uk_path Sample.g_path
           Sample.uk_files _ [Sample.out_g 6; Sample.out_g 24]).
  vm_compute. reflexivity.
Defined.

(** The regional file of 03h holds a cube of air pressure, its global file
    does not. *)
Lemma absent_parameter_fatal_witness :
  Sample.turn "air_pressure" ([], []) "prods_op_mogreps-uk_20160107_03_00_003.nc"
  = Raise ValueError /\
  Sample.turns "air_pressure" ([], [])
    ("prods_op_mogreps-uk_20160107_03_00_003.nc"
     :: ["prods_op_mogreps-uk_20160107_21_00_003.nc"])
  = Raise ValueError.
Proof.
  eapply (absent_parameter_fatal Z Z.ltb (option string) Sample.extract
            Sample.iris_load Sample.unrotate Sample.get_uk_from_global
            "air_pressure" Sample.g_files Sample.uk_path Sample.g_path
            ([], []) "prods_op_mogreps-uk_20160107_03_00_003.nc"
            ["prods_op_mogreps-uk_20160107_21_00_003.nc"]
            [PStr "20160107"; PInt 3; PInt 0; PInt 3]
            "prods_op_mogreps-g_20160107_00_00_006.nc").
  - vm_compute. reflexivity.
  - vm_compute. reflexivity.
  - vm_compute. reflexivity.
  - vm_compute. reflexivity.
  - vm_compute. reflexivity.
  - intros [_ Hin]. cbn in Hin. intuition discriminate.
Defined.

(** The run of 15h: the global file holds the time 21 only, the last
    regional time is 18. *)
Lemma global_without_time_skipped_witness :
  Sample.align "air_temperature" "prods_op_mogreps-uk_20160107_15_00_003.nc"
    "prods_op_mogreps-g_20160107_12_00_006.nc" = Raise AttributeError /\
  Sample.turn "air_temperature" ([Sample.out_uk 6], [Sample.out_g 6])
    "prods_op_mogreps-uk_20160107_15_00_003.nc"
  = OK ([Sample.out_uk 6], [Sample.out_g 6]).
Proof.
  eapply (global_without_time_skipped Z Z.ltb (option string) Sample.extract
            Sample.iris_load Sample.unrotate Sample.get_uk_from_global
            "air_temperature" Sample.g_files Sample.uk_path Sample.g_path
            ([Sample.out_uk 6], [Sample.out_g 6])
            "prods_op_mogreps-uk_20160107_15_00_003.nc"
            "prods_op_mogreps-g_20160107_12_00_006.nc"
            [PStr "20160107"; PInt 15; PInt 0; PInt 3]
            [Sample.uk_cube "air_temperature" [15; 18] [10; 5] (Some "RotatedGeogCS")]
            [Sample.g_cube "air_temperature" [21] [850; 1000]]
            (Sample.uk_cube "air_temperature" [15; 18] [10; 5] (Some "RotatedGeogCS"))
            (Sample.g_cube "air_temperature" [21] [850; 1000])
            (Sample.uk_cube "air_temperature" [18] [10; 5] (Some "RotatedGeogCS"))
            18 18
            (Some (Sample.uk_cube "air_temperature" [18] [5] (Some "RotatedGeogCS")))
            (Some (mkCube "air_temperature"
                     [mkCoord "time" [18]; mkCoord "grid_latitude" [0; 1];
                      mkCoord "grid_longitude" [0; 1]] (Some "RotatedGeogCS")))
            (Some "height"));
    vm_compute; reflexivity.
Defined.

(** * [list_files] *)

Lemma take_keys_exhausted (count : nat) (acc : list S3Key) :
  take_keys count Exhausted acc = OK acc.
Proof. induction count as [| k IH]; [reflexivity | exact IH]. Qed.

(** As long as the listing gives keys the loop takes them in order, and it
    does not look past the last one it takes. *)
Lemma take_keys_listing (count : nat) (ks : list S3Key) (tail : listing)
    (acc : list S3Key) :
  (count <= length ks)%nat ->
  take_keys count (listing_of ks tail) acc = OK (acc ++ firstn count ks)%list.
Proof.
  revert ks acc. induction count as [| k IH]; intros ks acc Hle.
  - cbn. now rewrite app_nil_r.
  - destruct ks as [| x r]; [cbn in Hle; lia |].
    cbn [listing_of take_keys firstn]. rewrite IH by (cbn in Hle; lia).
    now rewrite <- app_assoc.
Qed.

Lemma take_keys_short (count : nat) (ks : list S3Key) (acc : list S3Key) :
  take_keys count (listing_of ks Exhausted) acc = OK (acc ++ firstn count ks)%list.
Proof.
  revert ks acc. induction count as [| k IH]; intros ks acc.
  - cbn. now rewrite app_nil_r.
  - destruct ks as [| x r].
    + cbn [listing_of take_keys firstn]. rewrite take_keys_exhausted.
      now rewrite app_nil_r.
    + cbn [listing_of take_keys firstn]. rewrite IH. now rewrite <- app_assoc.
Qed.

Lemma take_keys_broken (count : nat) (ks : list S3Key) (e : exn) (acc : list S3Key) :
  (length ks < count)%nat ->
  take_keys count (listing_of ks (Broken e)) acc = Raise e.
Proof.
  revert ks acc. induction count as [| k IH]; intros ks acc Hlt; [lia |].
  destruct ks as [| x r]; [reflexivity |].
  cbn [listing_of take_keys]. apply IH. cbn in Hlt. lia.
Qed.

Section ListFilesFacts.

Variable Conn Bucket : Type.
Variable s3_connection : environ -> string -> result Conn.
Variable get_bucket : Conn -> string -> result Bucket.
Variable bucket_list : Bucket -> string -> listing.

#[local] Abbreviation list_files' :=
  (list_files s3_connection get_bucket bucket_list).

(** X17: once the bucket is reached, [list_files] returns the names of the
    first [n] keys of the listing, in the order of the listing: all of them
    when the listing ends before [n] keys, none when [n] is zero or
    negative.  What the listing holds after the [n]-th key, an error
    included, is never asked for. *)
Theorem list_files_first_n (env : environ) (bucket prefix : string) (n : Z)
    (conn : Conn) (b : Bucket) (ks : list S3Key) (tail : listing) :
  s3_connection (environ_set env "S3_USE_SIGV4" "True") "s3.eu-west-2.amazonaws.com"
  = OK conn ->
  get_bucket conn bucket = OK b ->
  bucket_list b prefix = listing_of ks tail ->
  (Z.to_nat n <= length ks)%nat \/ tail = Exhausted ->
  exists names,
    snd (list_files' env bucket prefix n) = OK names /\
    names = map key (firstn (Z.to_nat n) ks) /\
    length names = Nat.min (Z.to_nat n) (length ks) /\
    (n <= 0 -> names = []).
Proof.
  intros Hconn Hb Hlist Hcase.
  exists (map key (firstn (Z.to_nat n) ks)).
  split; [| split; [reflexivity | split]].
  - unfold list_files. cbn [snd]. rewrite Hconn. cbn [bind].
    rewrite Hb. cbn [bind]. rewrite Hlist.
    destruct Hcase as [Hle | ->].
    + rewrite take_keys_listing by exact Hle. reflexivity.
    + rewrite take_keys_short. reflexivity.
  - now rewrite length_map, length_firstn.
  - intros Hn. replace (Z.to_nat n) with 0%nat by lia. reflexivity.
Qed.

(** X18: an error of the listing that comes before [n] keys were given
    leaves [list_files]; the names gathered until then are not returned. *)
Theorem list_files_broken (env : environ) (bucket prefix : string) (n : Z)
    (conn : Conn) (b : Bucket) (ks : list S3Key) (e : exn) :
  s3_connection (environ_set env "S3_USE_SIGV4" "True") "s3.eu-west-2.amazonaws.com"
  = OK conn ->
  get_bucket conn bucket = OK b ->
  bucket_list b prefix = listing_of ks (Broken e) ->
  (length ks < Z.to_nat n)%nat ->
  snd (list_files' env bucket prefix n) = Raise e.
Proof.
  intros Hconn Hb Hlist Hlt.
  unfold list_files. cbn [snd]. rewrite Hconn. cbn [bind].
  rewrite Hb. cbn [bind]. rewrite Hlist.
  now rewrite take_keys_broken.
Qed.

End ListFilesFacts.

Lemma list_files_first_n_witness :
  (exists names,
     snd (Store.ls "mogreps" "prods" 3) = OK names /\
     names = map key (firstn (Z.to_nat 3) (map mkKey Store.names)) /\
     length names = Nat.min (Z.to_nat 3) (length (map mkKey Store.names)) /\
     (3 <= 0 -> names = [])) /\
  (exists names,
     snd (Store.ls "mogreps" "prods" 100) = OK names /\
     names = map key (firstn (Z.to_nat 100) (map mkKey Store.names)) /\
     length names = Nat.min (Z.to_nat 100) (length (map mkKey Store.names)) /\
     (100 <= 0 -> names = [])) /\
  (exists names,
     snd (Store.ls "flaky" "prods" 2) = OK names /\
     names = map key (firstn (Z.to_nat 2) (map mkKey (firstn 2 Store.names))) /\
     length names = Nat.min (Z.to_nat 2) (length (map mkKey (firstn 2 Store.names))) /\
     (2 <= 0 -> names = [])).
Proof.
  split; [| split].
  - apply (list_files_first_n unit string Store.s3_connection Store.get_bucket
             Store.bucket_list Store.no_env "mogreps" "prods" 3 tt "mogreps"
             (map mkKey Store.names) Exhausted);
      [reflexivity | reflexivity | reflexivity | left; vm_compute; lia].
  - apply (list_files_first_n unit string Store.s3_connection Store.get_bucket
             Store.bucket_list Store.no_env "mogreps" "prods" 100 tt "mogreps"
             (map mkKey Store.names) Exhausted);
      [reflexivity | reflexivity | reflexivity | now right].
  - apply (list_files_first_n unit string Store.s3_connection Store.get_bucket
             Store.bucket_list Store.no_env "flaky" "prods" 2 tt "flaky"
             (map mkKey (firstn 2 Store.names))
             (Broken (OtherError "S3ResponseError")));
      [reflexivity | reflexivity | reflexivity | left; vm_compute; lia].
Defined.

Lemma list_files_broken_witness :
  snd (Store.ls "flaky" "prods" 3) = Raise (OtherError "S3ResponseError").
Proof.
  apply (list_files_broken unit string Store.s3_connection Store.get_bucket
           Store.bucket_list Store.no_env "flaky" "prods" 3 tt "flaky"
           (map mkKey (firstn 2 Store.names)) (OtherError "S3ResponseError"));
    [reflexivity | reflexivity | reflexivity | vm_compute; lia].
Defined.

Example list_files_sample :
  snd (Store.ls "mogreps" "prods" 3)
  = OK ["prods_op_mogreps-uk_20160107_03_00_003.nc";
        "prods_op_mogreps-uk_20160107_03_00_006.nc";
        "prods_op_mogreps-uk_20160107_03_01_003.nc"].
Proof. vm_compute. reflexivity. Qed.

(** * [get_uk_from_global] *)

Section SortedEnds.

Variable A : Type.
Variable R : A -> A -> Prop.

#[local] Open Scope list_scope.

Lemma sorted_head (a : A) (l : list A) :
  StronglySorted R (a :: l) -> forall y, In y l -> R a y.
Proof.
  intros Hs. apply StronglySorted_inv in Hs as [_ Hall].
  now apply Forall_forall.
Qed.

Lemma sorted_last (l : list A) (b : A) :
  StronglySorted R (l ++ [b]) -> forall y, In y l -> R y b.
Proof.
  induction l as [| a t IH]; intros Hs y Hy; [destruct Hy |].
  cbn [Datatypes.app] in Hs. destruct Hy as [<- | Hy].
  - apply (sorted_head _ _ Hs). apply in_or_app. right. now left.
  - apply IH; [| exact Hy]. now apply StronglySorted_inv in Hs as [Hs _].
Qed.

(** The first and the last item of a sorted list that is not empty. *)
Lemma sorted_ends (l : list A) :
  l <> [] -> StronglySorted R l ->
  exists a b, Py.getitem l 0 = OK a /\ Py.getitem l (-1) = OK b /\
              In a l /\ In b l /\
              (forall y, In y l -> y = a \/ R a y) /\
              (forall y, In y l -> y = b \/ R y b).
Proof.
  intros Hne Hs.
  destruct l as [| a t]; [congruence |].
  destruct (list_snoc (a :: t) Hne) as (l' & b & Hl).
  exists a, b. split; [apply getitem_head |].
  split; [rewrite Hl; apply getitem_last |].
  split; [now left |].
  split; [rewrite Hl; apply in_or_app; right; now left |].
  split.
  - intros y [<- | Hy]; [now left | right]. now apply (sorted_head _ _ Hs).
  - rewrite Hl in Hs |- *. intros y [Hy | [<- | []]]%in_app_or; [right | now left].
    now apply (sorted_last _ _ Hs).
Qed.

End SortedEnds.

Section CropFacts.

Variable V : Type.
Variable ltb : V -> V -> bool.
Variable Data : Type.
Variable intersection : Cube V Data -> string -> V * V -> result (Cube V Data).

Hypothesis ltb_irrefl : forall x, ltb x x = false.

Lemma ascending_ends (l : list V) :
  l <> [] -> ascending ltb l ->
  exists lo hi, Py.getitem l 0 = OK lo /\ Py.getitem l (-1) = OK hi /\
                is_min ltb lo l /\ is_max ltb hi l.
Proof.
  intros Hne Hs.
  destruct (sorted_ends V _ l Hne Hs) as (a & b & Ha & Hb & Hina & Hinb & Hlo & Hhi).
  exists a, b. repeat split; try assumption.
  - intros y Hy. destruct (Hlo y Hy) as [-> | Hr]; [apply ltb_irrefl | exact Hr].
  - intros y Hy. destruct (Hhi y Hy) as [-> | Hr]; [apply ltb_irrefl | exact Hr].
Qed.

Lemma descending_ends (l : list V) :
  l <> [] -> descending ltb l ->
  exists first last, Py.getitem l 0 = OK first /\ Py.getitem l (-1) = OK last /\
                     is_max ltb first l /\ is_min ltb last l.
Proof.
  intros Hne Hs.
  destruct (sorted_ends V _ l Hne Hs) as (a & b & Ha & Hb & Hina & Hinb & Hlo & Hhi).
  exists a, b. repeat split; try assumption.
  - intros y Hy. destruct (Hlo y Hy) as [-> | Hr]; [apply ltb_irrefl | exact Hr].
  - intros y Hy. destruct (Hhi y Hy) as [-> | Hr]; [apply ltb_irrefl | exact Hr].
Qed.

(** X19: the box cut out of the global cube goes from the first to the last
    point of the regional latitudes and longitudes.  With points in
    ascending order these are the least and the greatest values; with
    points in descending order the bounds are handed over the wrong way
    round, the greatest value as the lower bound. *)
Theorem crop_bounds (g_cube : option (Cube V Data)) (uk_cube : Cube V Data)
    (lat lon : Coord V) :
  cube_coord uk_cube "latitude" = OK lat ->
  cube_coord uk_cube "longitude" = OK lon ->
  coord_points lat <> [] -> coord_points lon <> [] ->
  (ascending ltb (coord_points lat) -> ascending ltb (coord_points lon) ->
   exists minlat maxlat minlon maxlon,
     is_min ltb minlat (coord_points lat) /\ is_max ltb maxlat (coord_points lat) /\
     is_min ltb minlon (coord_points lon) /\ is_max ltb maxlon (coord_points lon) /\
     Grid.get_uk_from_global intersection g_cube uk_cube
     = (g <- attr g_cube ;;
        g_lat <- intersection g "latitude" (minlat, maxlat) ;;
        intersection g_lat "longitude" (minlon, maxlon))) /\
  (descending ltb (coord_points lat) -> descending ltb (coord_points lon) ->
   exists minlat maxlat minlon maxlon,
     is_max ltb minlat (coord_points lat) /\ is_min ltb maxlat (coord_points lat) /\
     is_max ltb minlon (coord_points lon) /\ is_min ltb maxlon (coord_points lon) /\
     Grid.get_uk_from_global intersection g_cube uk_cube
     = (g <- attr g_cube ;;
        g_lat <- intersection g "latitude" (minlat, maxlat) ;;
        intersection g_lat "longitude" (minlon, maxlon))).
Proof.
  intros Hlat Hlon Hnlat Hnlon.
  assert (forall a b c d,
            Py.getitem (coord_points lat) 0 = OK a ->
            Py.getitem (coord_points lat) (-1) = OK b ->
            Py.getitem (coord_points lon) 0 = OK c ->
            Py.getitem (coord_points lon) (-1) = OK d ->
            Grid.get_uk_from_global intersection g_cube uk_cube
            = (g <- attr g_cube ;;
               g_lat <- intersection g "latitude" (a, b) ;;
               intersection g_lat "longitude" (c, d))) as Hrun.
  { intros a b c d Ha Hb Hc Hd. unfold Grid.get_uk_from_global, Grid.point_of.
    rewrite Hlat, Hlon. cbn [bind]. rewrite Ha, Hb, Hc, Hd. cbn [bind].
    destruct (attr g_cube) as [g |]; cbn [bind]; [| reflexivity].
    destruct (intersection g "latitude" (a, b)) as [g1 |]; cbn [bind]; [| reflexivity].
    now destruct (intersection g1 "longitude" (c, d)). }
  split.
  - intros Alat Alon.
    destruct (ascending_ends _ Hnlat Alat) as (a & b & Ha & Hb & Hmin & Hmax).
    destruct (ascending_ends _ Hnlon Alon) as (c & d & Hc & Hd & Hmin' & Hmax').
    exists a, b, c, d. repeat (split; [assumption |]). now apply Hrun.
  - intros Dlat Dlon.
    destruct (descending_ends _ Hnlat Dlat) as (a & b & Ha & Hb & Hmax & Hmin).
    destruct (descending_ends _ Hnlon Dlon) as (c & d & Hc & Hd & Hmax' & Hmin').
    exists a, b, c, d. repeat (split; [assumption |]). now apply Hrun.
Qed.

End CropFacts.

Ltac sorted_list :=
  repeat (constructor; [| repeat (constructor; [reflexivity |]); constructor]);
  constructor.

Lemma crop_bounds_witness :
  exists minlat maxlat minlon maxlon,
    is_min Z.ltb minlat [48; 50; 52] /\ is_max Z.ltb maxlat [48; 50; 52] /\
    is_min Z.ltb minlon [-4; -2; 0; 2] /\ is_max Z.ltb maxlon [-4; -2; 0; 2] /\
    Grid.get_uk_from_global Store.intersection (Some Store.globe) Store.uk_box
    = (g <- attr (Some Store.globe) ;;
       g_lat <- Store.intersection g "latitude" (minlat, maxlat) ;;
       Store.intersection g_lat "longitude" (minlon, maxlon)).
Proof.
  apply (proj1 (crop_bounds Z Z.ltb (option string) Store.intersection Zltb_irrefl
                  (Some Store.globe) Store.uk_box
                  (mkCoord "latitude" [48; 50; 52])
                  (mkCoord "longitude" [-4; -2; 0; 2])
                  eq_refl eq_refl ltac:(discriminate) ltac:(discriminate))).
  - unfold ascending. cbn [coord_points]. sorted_list.
  - unfold ascending. cbn [coord_points]. sorted_list.
Defined.

Example crop_sample :
  Grid.get_uk_from_global Store.intersection (Some Store.globe) Store.uk_box
  = OK (mkCube "air_temperature"
          [mkCoord "time" [6]; mkCoord "latitude" [50];
           mkCoord "longitude" [0]] (Some "GeogCS")).
Proof. vm_compute. reflexivity. Qed.

(** * A regional cube without time *)

Section MissingTime.

Variable V : Type.
Variable ltb : V -> V -> bool.
Variable Data : Type.
Variable extract : Cube V Data -> string -> V -> result (option (Cube V Data)).
Variable iris_load : string -> result (list (Cube V Data)).
Variable unrotate : option (Cube V Data) -> option (Cube V Data) -> result (Cube V Data).
Variable get_uk_from_global : option (Cube V Data) -> Cube V Data -> result (Cube V Data).
Variable param : string.
Variable g_files : list string.
Variable uk_path g_path : string.

(** X20: a regional cube without a coordinate named "time" is fatal.  The
    lookup of the coordinate raises [CoordinateNotFoundError], a [KeyError]
    that the handler does not name: the function raises it instead of
    skipping the pair. *)
Theorem missing_time_fatal (st : pairs V Data) (fname : string)
    (rest : list string) (info : list pyval) (g_fname : string)
    (uk_cubes g_cubes : list (Cube V Data)) (uk_cube g_cube : Cube V Data) :
  get_info fname = OK info -> g_fname_of info = OK g_fname ->
  Py.contains g_files g_fname = true ->
  iris_load (g_path ++ g_fname)%string = OK g_cubes ->
  iris_load (uk_path ++ fname)%string = OK uk_cubes ->
  cube_named uk_cubes param = OK uk_cube ->
  cube_named g_cubes param = OK g_cube ->
  (forall d, In d (cube_coords uk_cube) -> coord_name d <> "time") ->
  run ltb extract iris_load unrotate get_uk_from_global param g_files
    uk_path g_path st (fname :: rest)
  = Raise CoordinateNotFoundError.
Proof.
  intros Hi Hg Hc Hlg Hluk Huk Hgc Hno.
  assert (cube_coord uk_cube "time" = Raise CoordinateNotFoundError) as Htime.
  { unfold cube_coord.
    assert (filter (fun d => String.eqb (coord_name d) "time") (cube_coords uk_cube)
            = []) as ->; [| reflexivity].
    induction (cube_coords uk_cube) as [| d t IH]; [reflexivity |].
    cbn [filter]. destruct (String.eqb_spec (coord_name d) "time") as [He | _].
    - exfalso. apply (Hno d); [now left | exact He].
    - apply IH. intros d' Hd'. apply Hno. now right. }
  cbn [run]. unfold loop_body. rewrite Hi. cbn [bind]. rewrite Hg. cbn [bind].
  rewrite Hc. unfold aligned_pair.
  rewrite Hlg. cbn [bind]. rewrite Hluk. cbn [bind].
  rewrite Huk. cbn [bind]. rewrite Hgc. cbn [bind].
  unfold last_time at 1. cbn [attr bind]. rewrite Htime. reflexivity.
Qed.

End MissingTime.

Lemma missing_time_fatal_witness :
  Timeless.turns ([], [])
    ["prods_op_mogreps-uk_20160107_03_00_003.nc";
     "prods_op_mogreps-uk_20160107_21_00_003.nc"]
  = Raise CoordinateNotFoundError.
Proof.
  apply (missing_time_fatal Z Z.ltb (option string) Sample.extract
           Timeless.iris_load Sample.unrotate Sample.get_uk_from_global
           "air_temperature" Sample.g_files Sample.uk_path Sample.g_path
           ([], []) "prods_op_mogreps-uk_20160107_03_00_003.nc"
           ["prods_op_mogreps-uk_20160107_21_00_003.nc"]
           [PStr "20160107"; PInt 3; PInt 0; PInt 3]
           "prods_op_mogreps-g_20160107_00_00_006.nc"
           [Timeless.uk]
           [Sample.g_cube "air_temperature" [6; 9] [850; 1000; 500]]
           Timeless.uk
           (Sample.g_cube "air_temperature" [6; 9] [850; 1000; 500]));
    try (vm_compute; reflexivity).
  intros d Hd. cbn in Hd. intuition (subst; discriminate).
Defined.
